(** * A REST adapter for notes: aiohttp_rest.py, models.py, aio-app.py

    Shallow embedding of the three modules of the repository and the
    properties of its HTTP surface.

    - Python values that travel through the handlers (parsed JSON, the
      arguments of a handler, the attributes of a [Note]) are the
      inductive type [value].
    - An exception is a value of [exn]; a computation that may raise and
      that reads or writes the shared [session] is a function
      [Session -> Session * result A] (the monad [M]).
    - The table [notes] behind the session is the list of its rows in
      primary-key order. *)

From Stdlib Require Import ZArith List String Ascii Bool Lia.
Import ListNotations.
Open Scope string_scope.
Open Scope Z_scope.
Open Scope list_scope.

Set Implicit Arguments.
Set Warnings "-register-all".

(** ** Python values *)

Module Py.

(** What [json.loads] produces and [json.dumps] consumes. A number that
    is not an integer is kept as its literal: the handlers only pass it
    along. *)
Inductive value : Type :=
| VNone
| VBool (b : bool)
| VInt (z : Z)
| VFloat (literal : string)
| VStr (s : string)
| VList (items : list value)
| VDict (entries : list (string * value)).

(** The exceptions the three modules can raise. The first two are the
    aiohttp classes the dispatcher raises itself, the next ones are the
    interpreter's. [JSONDecodeError] stands for the failure of
    [request.json()] and [StorageError] for the failure of a commit that
    the storage refuses (a value it cannot bind); the libraries have
    several classes for each, which the model does not tell apart. *)
Inductive exn : Type :=
| HTTPMethodNotAllowed (method : string) (allowed_methods : list string)
| HttpBadRequest (message : string)
| KeyError (key : string)
| TypeError
| AttributeError (attr : string)
| NameError (name : string)
| JSONDecodeError
| StorageError.

(** [status_code] of [HTTPMethodNotAllowed] and [code] of
    [HttpBadRequest]; the interpreter's exceptions carry none. *)
Definition status_code (e : exn) : option Z :=
  match e with
  | HTTPMethodNotAllowed _ _ => Some 405
  | HttpBadRequest _ => Some 400
  | _ => None
  end.

Inductive result (A : Type) : Type :=
| Ok (a : A)
| Raise (e : exn).

Arguments Ok {A} a.
Arguments Raise {A} e.

(** *** Dictionaries

    A [dict] keeps its keys in insertion order; [d[k] = v] overwrites in
    place when [k] is present and appends otherwise. *)
Section Dict.
Variable V : Type.

Definition dict := list (string * V).

Fixpoint dict_get (d : dict) (k : string) : option V :=
  match d with
  | [] => None
  | (k', v) :: d' => if String.eqb k' k then Some v else dict_get d' k
  end.

Fixpoint dict_set (d : dict) (k : string) (v : V) : dict :=
  match d with
  | [] => [(k, v)]
  | (k', v') :: d' =>
      if String.eqb k' k then (k', v) :: d' else (k', v') :: dict_set d' k v
  end.

Definition dict_keys (d : dict) : list string := map fst d.

Definition dict_has (d : dict) (k : string) : bool :=
  match dict_get d k with Some _ => true | None => false end.

(** [d.update(other)] *)
Definition dict_update (d other : dict) : dict :=
  fold_left (fun acc kv => dict_set acc (fst kv) (snd kv)) other d.
End Dict.

(** [data[key]] on a parsed JSON document: a [KeyError] on a dictionary
    without the key, a [TypeError] on everything that is no dictionary
    (a list or a string indexed by a [str], a number, [None]). *)
Definition subscript (data : value) (key : string) : result value :=
  match data with
  | VDict d =>
      match dict_get d key with
      | Some v => Ok v
      | None => Raise (KeyError key)
      end
  | _ => Raise TypeError
  end.

(** *** [str.upper] and [str.lower] on the ASCII letters *)
Definition upper_ascii (c : ascii) : ascii :=
  let n := nat_of_ascii c in
  if andb (Nat.leb 97 n) (Nat.leb n 122) then ascii_of_nat (n - 32) else c.

Definition lower_ascii (c : ascii) : ascii :=
  let n := nat_of_ascii c in
  if andb (Nat.leb 65 n) (Nat.leb n 90) then ascii_of_nat (n + 32) else c.

Fixpoint upper (s : string) : string :=
  match s with
  | EmptyString => EmptyString
  | String c s' => String (upper_ascii c) (upper s')
  end.

Fixpoint lower (s : string) : string :=
  match s with
  | EmptyString => EmptyString
  | String c s' => String (lower_ascii c) (lower s')
  end.

(** Structural equality of two values, as a boolean. *)
Fixpoint value_eqb (a b : value) {struct a} : bool :=
  match a, b with
  | VNone, VNone => true
  | VBool x, VBool y => Bool.eqb x y
  | VInt x, VInt y => Z.eqb x y
  | VFloat x, VFloat y => String.eqb x y
  | VStr x, VStr y => String.eqb x y
  | VList xs, VList ys =>
      (fix items (xs ys : list value) {struct xs} : bool :=
         match xs, ys with
         | [], [] => true
         | x :: xs', y :: ys' => andb (value_eqb x y) (items xs' ys')
         | _, _ => false
         end) xs ys
  | VDict xs, VDict ys =>
      (fix entries (xs ys : list (string * value)) {struct xs} : bool :=
         match xs, ys with
         | [], [] => true
         | (k, x) :: xs', (k', y) :: ys' =>
             andb (String.eqb k k') (andb (value_eqb x y) (entries xs' ys'))
         | _, _ => false
         end) xs ys
  | _, _ => false
  end.

(** *** Results: sequencing of computations that may raise *)
Definition result_bind (A B : Type) (r : result A) (k : A -> result B)
  : result B :=
  match r with
  | Ok a => k a
  | Raise e => Raise e
  end.

(** A call that unpacks a dictionary into keyword arguments, for a
    function whose parameters are all required:
    a [TypeError] on a keyword that is no parameter and on a parameter
    without a keyword; otherwise the arguments in the order of the
    parameters. *)
Section Call.
Variable V : Type.

Definition is_param (params : list string) (k : string) : bool :=
  existsb (String.eqb k) params.

Fixpoint positional (params : list string) (kwargs : dict V)
  : result (list V) :=
  match params with
  | [] => Ok []
  | p :: params' =>
      match dict_get kwargs p with
      | None => Raise TypeError
      | Some v =>
          result_bind (positional params' kwargs) (fun vs => Ok (v :: vs))
      end
  end.

Definition bind_kwargs (params : list string) (kwargs : dict V)
  : result (list V) :=
  if forallb (is_param params) (dict_keys kwargs)
  then positional params kwargs
  else Raise TypeError.
End Call.

End Py.
Import Py.

(** ** models.py *)

Module Models.

(** A [Note] with the values of its six columns. [id] is [None] until the
    row is inserted. No column is validated: a field holds whatever value
    the caller passed. *)
Record Note : Type := mkNote {
  id : option Z;
  title : value;
  description : value;
  created_at : value;
  created_by : value;
  priority : value
}.

(** [Note.__init__(self, title, description, created_at, created_by,
    priority)] *)
Definition init (title description created_at created_by priority : value)
  : Note :=
  mkNote None title description created_at created_by priority.

Definition init_params : list string :=
  ["title"; "description"; "created_at"; "created_by"; "priority"].

(** [Note.from_json(data)]: the constructor called with the entries of
    [data] as keyword arguments. *)
Definition from_json (data : value) : result Note :=
  match data with
  | VDict d =>
      result_bind (bind_kwargs init_params d) (fun args =>
        match args with
        | [t; de; ca; cb; p] => Ok (init t de ca cb p)
        | _ => Raise TypeError
        end)
  | _ => Raise TypeError
  end.

Definition id_value (self : Note) : value :=
  match id self with
  | Some z => VInt z
  | None => VNone
  end.

(** [getattr(self, name)] on the columns of a note. *)
Definition getattr (self : Note) (name : string) : result value :=
  if String.eqb name "id" then Ok (id_value self)
  else if String.eqb name "title" then Ok (title self)
  else if String.eqb name "description" then Ok (description self)
  else if String.eqb name "created_at" then Ok (created_at self)
  else if String.eqb name "created_by" then Ok (created_by self)
  else if String.eqb name "priority" then Ok (priority self)
  else Raise (AttributeError name).

Definition to_serialize : list string :=
  ["id"; "title"; "description"; "created_at"; "created_by"; "priority"].

(** [Note.to_json(self)]: the loop [d[attr_name] = getattr(self,
    attr_name)] over [to_serialize], from the empty dictionary. *)
Definition to_json (self : Note) : result (dict value) :=
  fold_left
    (fun acc attr_name =>
       result_bind acc (fun d =>
       result_bind (getattr self attr_name) (fun v =>
       Ok (dict_set d attr_name v))))
    to_serialize (Ok []).

(** Attribute assignment [note.<column> = v]. *)
Definition set_title (v : value) (n : Note) : Note :=
  mkNote (id n) v (description n) (created_at n) (created_by n) (priority n).
Definition set_description (v : value) (n : Note) : Note :=
  mkNote (id n) (title n) v (created_at n) (created_by n) (priority n).
Definition set_created_at (v : value) (n : Note) : Note :=
  mkNote (id n) (title n) (description n) v (created_by n) (priority n).
Definition set_created_by (v : value) (n : Note) : Note :=
  mkNote (id n) (title n) (description n) (created_at n) v (priority n).
Definition set_priority (v : value) (n : Note) : Note :=
  mkNote (id n) (title n) (description n) (created_at n) (created_by n) v.

(** *** The session

    [session] is one object shared by every request. Its state is the
    table [notes] as the session's queries return it: the rows in
    primary-key order, each with the attribute values of the object the
    session holds for it. An assignment to an attribute of a loaded note
    is therefore seen by the later queries of the session, whether a
    commit followed it or not.

    The storage itself is no code of the repository. The model follows
    it where its behaviour is plain and says so where it does not:
    - a commit is refused when a value cannot be bound ([bindable]), and
      then changes nothing in the table;
    - a value that is bound is kept as it is. That is what the storage
      does with a string in a string column and with a 64-bit integer in
      the integer column ([storable]); other values it may convert on
      the way (the column affinity), which the model does not follow.
      The properties that read a value back after a commit are stated
      for storable values and for tables that hold such values
      ([committed]);
    - after a refused commit the session of the program stays unusable;
      the state describes a session that is usable;
    - a path segment is compared with the key by its reading as a
      decimal number ([int_of_text]). The storage also accepts other
      spellings of a number; the properties about a path are stated for
      the paths [int_of_text] reads. *)
Definition Session : Type := list Note.

Definition M (A : Type) : Type := Session -> Session * result A.

Definition ret (A : Type) (a : A) : M A := fun s => (s, Ok a).

Definition raise (A : Type) (e : exn) : M A := fun s => (s, Raise e).

Definition bind (A B : Type) (m : M A) (k : A -> M B) : M B :=
  fun s =>
    match m s with
    | (s', Ok a) => k a s'
    | (s', Raise e) => (s', Raise e)
    end.

Definition lift (A : Type) (r : result A) : M A := fun s => (s, r).

Arguments raise {A} e.

Declare Scope py_scope.
Delimit Scope py_scope with py.
Notation "x <- c1 ;; c2" := (bind c1 (fun x => c2))
  (at level 61, c1 at next level, right associativity) : py_scope.
Notation "c1 ;;; c2" := (bind c1 (fun _ => c2))
  (at level 61, right associativity) : py_scope.
Open Scope py_scope.

(** The number a path segment of decimal digits denotes. The storage
    compares the integer column [id] with the text bound from the URL as
    numbers; for a text of digits that number is this one. *)
Definition digit (c : ascii) : option Z :=
  let n := nat_of_ascii c in
  if andb (Nat.leb 48 n) (Nat.leb n 57) then Some (Z.of_nat (n - 48))
  else None.

Fixpoint digits (acc : Z) (s : string) : option Z :=
  match s with
  | EmptyString => Some acc
  | String c s' =>
      match digit c with
      | Some d => digits (10 * acc + d) s'
      | None => None
      end
  end.

Definition int_of_text (s : string) : option Z :=
  match s with
  | EmptyString => None
  | _ => digits 0 s
  end.

(** The criterion [Note.id == instance_id] on one row, for a path of
    decimal digits. *)
Definition id_is (instance_id : string) (n : Note) : bool :=
  match id n, int_of_text instance_id with
  | Some a, Some b => Z.eqb a b
  | _, _ => false
  end.

(** [session.query(Note)], iterated or with [.all()] *)
Definition query_all : M (list Note) := fun s => (s, Ok s).

(** [session.query(Note).filter(Note.id == instance_id).first()]:
    [None] when no row matches. *)
Definition query_first (instance_id : string) : M (option Note) :=
  fun s => (s, Ok (find (id_is instance_id) s)).

(** The largest primary key of the table, [None] for the empty table. *)
Definition max_id (s : Session) : option Z :=
  fold_right
    (fun n m =>
       match id n, m with
       | Some i, Some j => Some (Z.max i j)
       | Some i, None => Some i
       | None, _ => m
       end)
    None s.

(** The primary key the storage gives the next inserted row: one more
    than the largest key in use, 1 for the empty table. This is the rule
    as long as the largest key is below the largest 64-bit integer. *)
Definition next_id (s : Session) : Z :=
  match max_id s with
  | Some m => m + 1
  | None => 1
  end.

Definition same_row (a b : Note) : bool :=
  match id a, id b with
  | Some i, Some j => Z.eqb i j
  | _, _ => false
  end.

(** The 64-bit integers. *)
Definition int64 (z : Z) : bool :=
  andb (Z.leb (- 2 ^ 63) z) (Z.ltb z (2 ^ 63)).

(** The values the driver of the storage can bind to a statement:
    [None], booleans, numbers and strings, but no list, no dictionary and
    no integer outside 64 bits. *)
Definition bindable (v : value) : bool :=
  match v with
  | VList _ => false
  | VDict _ => false
  | VInt z => int64 z
  | _ => true
  end.

Definition row_bindable (n : Note) : bool :=
  andb (bindable (title n)) (andb (bindable (description n))
    (andb (bindable (created_at n)) (andb (bindable (created_by n))
      (bindable (priority n))))).

(** A commit writes the new rows and the rows with assigned attributes;
    it goes through when all their values can be bound. *)
Definition flushable (s : Session) : bool := forallb row_bindable s.

(** [session.add(note)]: a new note ([id] is [None]) becomes a row with
    the next primary key; a note the session loaded is already in it.
    Every handler commits in the statement after its change, so the
    state keeps no separate record of the pending changes: a change that
    the commit refuses is refused here, and the table stays as it was. *)
Definition session_add (note : Note) : M unit :=
  fun s =>
    match id note with
    | None =>
        let s' :=
          s ++ [mkNote (Some (next_id s)) (title note) (description note)
                  (created_at note) (created_by note) (priority note)] in
        if flushable s' then (s', Ok tt) else (s, Raise StorageError)
    | Some _ => (s, Ok tt)
    end.

(** [session.delete(note)]: the row of [note] leaves the table, unless
    the commit that follows is refused. *)
Definition session_delete (note : Note) : M unit :=
  fun s =>
    let s' := filter (fun n => negb (same_row note n)) s in
    if flushable s' then (s', Ok tt) else (s, Raise StorageError).

(** [session.commit()]: the changes become durable, or the commit is
    refused because a value of a changed note cannot be bound. *)
Definition session_commit : M unit :=
  fun s => if flushable s then (s, Ok tt) else (s, Raise StorageError).

(** A change [f] of the object the session holds for the row of
    [note]. *)
Definition update (note : Note) (f : Note -> Note) (s : Session) : Session :=
  map (fun n => if same_row note n then f n else n) s.

(** Assignment to an attribute of the object a query returned. On
    [None] it is an [AttributeError]; on a note, the session's object for
    that row changes. *)
Definition setattr (o : option Note) (name : string)
  (set : value -> Note -> Note) (v : value) : M unit :=
  match o with
  | None => raise (AttributeError name)
  | Some note => fun s => (update note (set v) s, Ok tt)
  end.

(** The current attributes of the object a query returned, as the
    session reads them again after a commit. *)
Definition load (note : Note) : M Note :=
  fun s =>
    match find (same_row note) s with
    | Some n => (s, Ok n)
    | None => (s, Ok note)
    end.

End Models.
Import Models.

(** ** aiohttp_rest.py *)

Module AiohttpRest.

Definition DEFAULT_METHODS : list string := ["GET"; "POST"; "PUT"; "DELETE"].

(** What the handlers read of an aiohttp [Request]: the method, the
    parameters the router matched in the path, and the body as
    [request.json()] parses it. [None] is a body on which
    [request.json()] raises, for one reason or another (a text that is
    no JSON, a body over the size limit); the model has one exception
    for all of them. *)
Record Request : Type := mkRequest {
  method : string;
  match_info : dict string;
  parsed_body : option value
}.

Definition json (request : Request) : M value :=
  match parsed_body request with
  | Some data => ret data
  | None => raise JSONDecodeError
  end.

(** The text [json.dumps(doc, indent=indent)], given by the document and
    the layout. *)
Record json_text : Type := dumps {
  doc : value;
  indent : option nat
}.

Inductive Body : Type :=
| NoBody
| StrBody (text : json_text)
| BytesBody (text : json_text).

(** [Response(status=..., body=..., content_type=...)] *)
Record Response : Type := mkResponse {
  status : Z;
  body : Body;
  content_type : option string
}.

(** An argument the dispatcher can pass: the text of a path parameter or
    the request itself. *)
Inductive arg : Type :=
| PathArg (text : string)
| RequestArg (request : Request).

(** A bound method of an endpoint: the names [inspect.signature] reports
    ([self] is not among them) and what a call with these arguments, in
    that order, does. *)
Record Method : Type := mkMethod {
  parameters : list string;
  call : list arg -> M Response
}.

(** A call of [method] with keyword arguments. *)
Definition call_kwargs (method : Method) (kwargs : dict arg) : M Response :=
  match bind_kwargs (parameters method) kwargs with
  | Ok args => call method args
  | Raise e => raise e
  end.

(** *** class RestEndpoint *)

(** [register_method]: [self.methods[method_name.upper()] = method] *)
Definition register_method (methods : dict Method) (method_name : string)
  (method : Method) : dict Method :=
  dict_set methods (upper method_name) method.

(** [RestEndpoint.__init__]: [attrs] are the attributes of the class of
    [self]; each name of [DEFAULT_METHODS] is looked up in lower case and
    registered when the class defines it. The result is [self.methods]. *)
Definition RestEndpoint_init (attrs : dict Method) : dict Method :=
  fold_left
    (fun methods method_name =>
       match dict_get attrs (lower method_name) with
       | Some method => register_method methods method_name method
       | None => methods
       end)
    DEFAULT_METHODS [].

(** [available_args]: a copy of [request.match_info], updated with the
    request under the key [request]. *)
Definition available_args (request : Request) : dict arg :=
  dict_update (map (fun kv => (fst kv, PathArg (snd kv))) (match_info request))
              [("request", RequestArg request)].

(** [set(wanted_args) - set(available_args.keys())], as the list of the
    wanted names that are not available. *)
Definition unsatisfied_args (wanted_args : list string)
  (available : dict arg) : list string :=
  filter (fun a => negb (dict_has available a)) wanted_args.

(** The comprehension [{arg_name: available_args[arg_name] for arg_name
    in wanted_args}]. *)
Definition selected_args (wanted_args : list string) (available : dict arg)
  : result (dict arg) :=
  fold_left
    (fun acc arg_name =>
       result_bind acc (fun d =>
         match dict_get available arg_name with
         | Some a => Ok (dict_set d arg_name a)
         | None => Raise (KeyError arg_name)
         end))
    wanted_args (Ok []).

(** [RestEndpoint.dispatch(self, request)], on [self.methods]. *)
Definition dispatch (methods : dict Method) (request : Request) : M Response :=
  match dict_get methods (upper (method request)) with
  | None => raise (HTTPMethodNotAllowed "" DEFAULT_METHODS)
  | Some method =>
      let wanted_args := parameters method in
      let available := available_args request in
      match unsatisfied_args wanted_args available with
      | _ :: _ => raise (HttpBadRequest "")
      | [] =>
          kwargs <- lift (selected_args wanted_args available) ;;
          call_kwargs method kwargs
      end
  end.

(** *** class RestResource

    [factory] is stored and never read; it is left out. [collection] is
    the dictionary the application passes in. *)
Record RestResource : Type := mkRestResource {
  notes : string;
  collection : dict Note;
  properties : list string;
  id_field : string
}.

(** [RestResource.render]: an ordered dictionary with one entry per name
    of [properties], read from the instance. *)
Definition render (self : RestResource) (instance : Note)
  : result (dict value) :=
  fold_left
    (fun acc name =>
       result_bind acc (fun d =>
       result_bind (getattr instance name) (fun v =>
       Ok (dict_set d name v))))
    (properties self) (Ok []).

(** [RestResource.encode]: [json.dumps(data, indent=4).encode('utf-8')] *)
Definition encode (data : value) : Body :=
  BytesBody (dumps data (Some 4%nat)).

Definition render_and_encode (self : RestResource) (instance : Note)
  : result Body :=
  result_bind (render self instance) (fun d => Ok (encode (VDict d))).

(** One entry of the list under [notes] in the collection bodies. *)
Definition note_entry (note : Note) : value :=
  VDict [("id", id_value note); ("title", title note);
         ("description", description note); ("created_at", created_at note);
         ("created_by", created_by note); ("priority", priority note)].

Definition notes_document (rows : list Note) : value :=
  VDict [("notes", VList (map note_entry rows))].

Definition json_type : option string := Some "application/json".

Section Endpoints.
Variable resource : RestResource.

(** *** class CollectionEndpoint *)

(** The loop of [get] over [self.resource.collection.values()]. *)
Fixpoint render_each (instances : list Note) : result (list value) :=
  match instances with
  | [] => Ok []
  | instance :: rest =>
      result_bind (render resource instance) (fun d =>
      result_bind (render_each rest) (fun ds => Ok (VDict d :: ds)))
  end.

Definition CollectionEndpoint_get : M Response :=
  _ <- query_all ;;
  data <- lift (render_each (map snd (collection resource))) ;;
  let _ := encode (VList data) in
  rows <- query_all ;;
  ret (mkResponse 200 (encode (notes_document rows)) json_type).

Definition CollectionEndpoint_post (request : Request) : M Response :=
  data <- json request ;;
  t <- lift (subscript data "title") ;;
  de <- lift (subscript data "description") ;;
  ca <- lift (subscript data "created_at") ;;
  cb <- lift (subscript data "created_by") ;;
  p <- lift (subscript data "priority") ;;
  let note := init t de ca cb p in
  session_add note ;;;
  session_commit ;;;
  rows <- query_all ;;
  ret (mkResponse 201 (encode (notes_document rows)) json_type).

(** *** class InstanceEndpoint *)

Definition InstanceEndpoint_get (instance_id : string) : M Response :=
  instance <- query_first instance_id ;;
  match instance with
  | None =>
      ret (mkResponse 404
             (StrBody (dumps (VDict [("not found", VInt 404)]) None))
             json_type)
  | Some instance =>
      data <- lift (render_and_encode resource instance) ;;
      ret (mkResponse 200 data json_type)
  end.

(** Each assignment evaluates [data[...]] first and then sets the
    attribute of [note]. When [note] is [None] the first assignment
    raises, so the statements after the assignments run on a note only;
    [session.add] of a loaded note changes nothing. *)
Definition InstanceEndpoint_put (request : Request) (instance_id : string)
  : M Response :=
  data <- json request ;;
  note <- query_first instance_id ;;
  v <- lift (subscript data "title") ;;
  setattr note "title" set_title v ;;;
  v <- lift (subscript data "description") ;;
  setattr note "description" set_description v ;;;
  v <- lift (subscript data "created_at") ;;
  setattr note "created_at" set_created_at v ;;;
  v <- lift (subscript data "created_by") ;;
  setattr note "created_by" set_created_by v ;;;
  v <- lift (subscript data "priority") ;;
  setattr note "priority" set_priority v ;;;
  match note with
  | None => raise (AttributeError "title")
  | Some note =>
      session_add note ;;;
      session_commit ;;;
      current <- load note ;;
      data <- lift (render_and_encode resource current) ;;
      ret (mkResponse 201 data json_type)
  end.

(** The branch for a missing note calls [abort], a name the module
    neither defines nor imports. *)
Definition InstanceEndpoint_delete (instance_id : string) : M Response :=
  note <- query_first instance_id ;;
  match note with
  | None => raise (NameError "abort")
  | Some note =>
      session_delete note ;;;
      session_commit ;;;
      ret (mkResponse 204 NoBody None)
  end.

(** The bound methods, as the dispatcher sees them. *)
Definition collection_get : Method :=
  mkMethod [] (fun args =>
    match args with
    | [] => CollectionEndpoint_get
    | _ => raise TypeError
    end).

Definition collection_post : Method :=
  mkMethod ["request"] (fun args =>
    match args with
    | [RequestArg request] => CollectionEndpoint_post request
    | _ => raise TypeError
    end).

Definition instance_get : Method :=
  mkMethod ["instance_id"] (fun args =>
    match args with
    | [PathArg instance_id] => InstanceEndpoint_get instance_id
    | _ => raise TypeError
    end).

Definition instance_put : Method :=
  mkMethod ["request"; "instance_id"] (fun args =>
    match args with
    | [RequestArg request; PathArg instance_id] =>
        InstanceEndpoint_put request instance_id
    | _ => raise TypeError
    end).

Definition instance_delete : Method :=
  mkMethod ["instance_id"] (fun args =>
    match args with
    | [PathArg instance_id] => InstanceEndpoint_delete instance_id
    | _ => raise TypeError
    end).

(** [self.collection_endpoint] and [self.instance_endpoint], by their
    [methods] after [__init__]. *)
Definition collection_endpoint : dict Method :=
  RestEndpoint_init [("get", collection_get); ("post", collection_post)].

Definition instance_endpoint : dict Method :=
  RestEndpoint_init
    [("get", instance_get); ("put", instance_put);
     ("delete", instance_delete)].

(** [RestResource.register]: both routes accept every method. A request
    reaches [dispatch] with the path parameters of its route. *)
Inductive route : Type :=
| collection_route
| instance_route (instance_id : string).

Definition serve (r : route) (http_method : string)
  (request_body : option value) : M Response :=
  match r with
  | collection_route =>
      dispatch collection_endpoint (mkRequest http_method [] request_body)
  | instance_route instance_id =>
      dispatch instance_endpoint
        (mkRequest http_method [("instance_id", instance_id)] request_body)
  end.
End Endpoints.

End AiohttpRest.
Import AiohttpRest.

(** ** aio-app.py *)

Module AioApp.

Definition person_resource : RestResource :=
  mkRestResource "notes" []
    ["title"; "description"; "created_at"; "created_by"; "priority"] "title".

(** The application: [person_resource] registered on the router. *)
Definition app : route -> string -> option value -> M Response :=
  serve person_resource.

End AioApp.
Import AioApp.

(** ** Vocabulary of the properties *)

(** The parsed body [data] has the five fields, with these values. *)
Definition has_fields (data t de ca cb p : value) : Prop :=
  subscript data "title" = Ok t /\
  subscript data "description" = Ok de /\
  subscript data "created_at" = Ok ca /\
  subscript data "created_by" = Ok cb /\
  subscript data "priority" = Ok p.

(** The object with the five fields, in the order of the properties of
    [person_resource]. *)
Definition fields (t de ca cb p : value) : dict value :=
  [("title", t); ("description", de); ("created_at", ca);
   ("created_by", cb); ("priority", p)].

(** The note object a rendering through [person_resource] shows. *)
Definition rendered (n : Note) : dict value :=
  fields (title n) (description n) (created_at n) (created_by n) (priority n).

(** The row with primary key [k] and the five values. *)
Definition row (k : Z) (t de ca cb p : value) : Note :=
  mkNote (Some k) t de ca cb p.

(** All five columns of a row overwritten, the key kept. *)
Definition overwrite (t de ca cb p : value) (n : Note) : Note :=
  mkNote (id n) t de ca cb p.

(** The row a path segment designates, as [query_first] finds it. *)
Definition matching (instance_id : string) (s : Session) : option Note :=
  find (id_is instance_id) s.



(** The entries of the list under [notes] in a collection body. *)
Definition listed (r : Response) : list value :=
  match body r with
  | BytesBody (dumps (VDict [(_, VList entries)]) _) => entries
  | _ => []
  end.




(** The methods an endpoint of the application answers. *)
Definition handler_of (r : route) (http_method : string) : option Method :=
  match r with
  | collection_route =>
      dict_get (collection_endpoint person_resource) (upper http_method)
  | instance_route _ =>
      dict_get (instance_endpoint person_resource) (upper http_method)
  end.

(** *** Values and tables the storage keeps as they are *)

Definition is_text (v : value) : bool :=
  match v with
  | VStr _ => true
  | _ => false
  end.

Definition is_integer (v : value) : bool :=
  match v with
  | VInt z => int64 z
  | _ => false
  end.

(** Five values of the types of the five columns: four strings and a
    64-bit integer. The storage gives them back as it got them. *)
Definition storable (t de ca cb p : value) : bool :=
  andb (is_text t) (andb (is_text de) (andb (is_text ca)
    (andb (is_text cb) (is_integer p)))).

(** A row as a commit leaves it: a key from 1 on and below the largest
    64-bit integer, and values of the types of the columns. *)
Definition stored_row (n : Note) : bool :=
  andb
    (match id n with
     | Some k => andb (Z.leb 1 k) (Z.ltb k (2 ^ 63 - 1))
     | None => false
     end)
    (storable (title n) (description n) (created_at n) (created_by n)
       (priority n)).

(** The rows come in the order of their keys. *)
Fixpoint ascending (s : Session) : bool :=
  match s with
  | [] => true
  | n :: s' =>
      andb
        (match s' with
         | [] => true
         | m :: _ =>
             match id n, id m with
             | Some a, Some b => Z.ltb a b
             | _, _ => false
             end
         end)
        (ascending s')
  end.

(** A table as the commits leave it: such rows, in the order of their
    keys; no note of the session carries an assigned value that a commit
    has not written. *)
Definition committed (s : Session) : Prop :=
  andb (forallb stored_row s) (ascending s) = true.

(** The body is a JSON object with all of the five fields. *)
Definition has_five (b : option value) : bool :=
  match b with
  | Some (VDict d) => forallb (dict_has d) init_params
  | _ => false
  end.

(** *** Sample data *)

Definition body_A : value :=
  VDict (fields (VStr "A") (VStr "d") (VStr "t") (VStr "u") (VInt 1)).


Definition note_A : Note :=
  row 1 (VStr "A") (VStr "d") (VStr "t") (VStr "u") (VInt 1).

Definition note_B : Note :=
  row 2 (VStr "B") (VStr "e") (VStr "t2") (VStr "v") (VInt 2).

(** A table with one row and a table with two. *)
Definition one_note : Session := [note_A].

Definition two_notes : Session := [note_A; note_B].

Definition body_title_only : value := VDict [("title", VStr "T")].

(** A body whose title is a list. *)
Definition body_list_title : value :=
  VDict (fields (VList []) (VStr "d") (VStr "t") (VStr "u") (VInt 1)).

(** *** Outcomes of a computation

    [outcome I R E m]: from every table [s], the computation [m] ends in
    a table related to [s] by [I], with a value that satisfies [R] or an
    exception that satisfies [E]. *)
Definition outcome (A : Type) (I : Session -> Session -> Prop)
  (R : A -> Prop) (E : exn -> Prop) (m : M A) : Prop :=
  forall s,
    I s (fst (m s)) /\
    match snd (m s) with
    | Ok a => R a
    | Raise e => E e
    end.

(** The responses of the handlers: 200, 201 and 404 with a JSON body and
    the JSON content type, 204 with neither. *)
Definition answer (r : Response) : Prop :=
  (In (status r) [200; 201; 404] /\ body r <> NoBody /\
   content_type r = json_type) \/
  (status r = 204 /\ body r = NoBody /\ content_type r = None).

(** The exceptions of the interpreter, which carry no HTTP status. *)
Definition interpreter_error (e : exn) : Prop := status_code e = None.

(** No two rows share a primary key. *)
Definition keys_unique (s : Session) : Prop := NoDup (map id s).

(** The names of the columns, which [getattr] reads. *)
Definition is_column (name : string) : bool := is_param to_serialize name.

(** ** Facts on the embedding *)

Section ValueFacts.


Lemma value_eqb_eq (a b : value) : value_eqb a b = true -> a = b.
Proof.
  revert a b.
  fix IH 1.
  intros [ | x | x | x | x | xs | xs] [ | y | y | y | y | ys | ys]; simpl;
    try discriminate; intros H.
  - reflexivity.
  - apply Bool.eqb_prop in H. now subst.
  - apply Z.eqb_eq in H. now subst.
  - apply String.eqb_eq in H. now subst.
  - apply String.eqb_eq in H. now subst.
  - f_equal. revert ys H.
    induction xs as [ | x xs IHxs]; intros [ | y ys] H;
      try discriminate; [reflexivity | ].
    apply andb_prop in H. destruct H as [Hx Hxs].
    f_equal; [exact (IH x y Hx) | exact (IHxs ys Hxs)].
  - f_equal. revert ys H.
    induction xs as [ | [k x] xs IHxs]; intros [ | [k' y] ys] H;
      try discriminate; [reflexivity | ].
    apply andb_prop in H. destruct H as [Hk H].
    apply andb_prop in H. destruct H as [Hx Hxs].
    apply String.eqb_eq in Hk. subst k'.
    f_equal; [f_equal; exact (IH x y Hx) | exact (IHxs ys Hxs)].
Qed.

End ValueFacts.

(** The dispatcher reaches the handler the route and the method name. *)
Section AppFacts.

Lemma app_list (b : option value) (s : Session) :
  app collection_route "GET" b s = CollectionEndpoint_get person_resource s.
Proof. reflexivity. Qed.

Lemma app_create (b : option value) (s : Session) :
  app collection_route "POST" b s =
  CollectionEndpoint_post (mkRequest "POST" [] b) s.
Proof. reflexivity. Qed.

Lemma app_fetch (i : string) (b : option value) (s : Session) :
  app (instance_route i) "GET" b s = InstanceEndpoint_get person_resource i s.
Proof. reflexivity. Qed.

Lemma app_update (i : string) (b : option value) (s : Session) :
  app (instance_route i) "PUT" b s =
  InstanceEndpoint_put person_resource
    (mkRequest "PUT" [("instance_id", i)] b) i s.
Proof. reflexivity. Qed.

Lemma app_remove (i : string) (b : option value) (s : Session) :
  app (instance_route i) "DELETE" b s = InstanceEndpoint_delete i s.
Proof. reflexivity. Qed.

Lemma render_person (n : Note) :
  render person_resource n = Ok (rendered n).
Proof. reflexivity. Qed.

Lemma render_and_encode_person (n : Note) :
  render_and_encode person_resource n = Ok (encode (VDict (rendered n))).
Proof. reflexivity. Qed.

(** What a fetch by identifier returns, by the row the identifier
    designates. *)
Lemma fetch_outcome (s : Session) (i : string) (b : option value) :
  app (instance_route i) "GET" b s =
    (s, Ok match matching i s with
           | None =>
               mkResponse 404
                 (StrBody (dumps (VDict [("not found", VInt 404)]) None))
                 json_type
           | Some n =>
               mkResponse 200 (encode (VDict (rendered n))) json_type
           end).
Proof.
  rewrite app_fetch.
  unfold InstanceEndpoint_get, bind, query_first, matching.
  destruct (find (id_is i) s) as [n | ]; reflexivity.
Qed.

End AppFacts.

Section SessionFacts.

Lemma id_is_key (i : string) (n : Note) :
  id_is i n = true -> exists k, id n = Some k /\ int_of_text i = Some k.
Proof.
  unfold id_is.
  destruct (id n) as [a | ]; [ | discriminate].
  destruct (int_of_text i) as [b | ]; [ | discriminate].
  intros H. apply Z.eqb_eq in H. subst b. now exists a.
Qed.

Lemma same_row_id_is (i : string) (n m : Note) :
  id_is i n = true -> same_row n m = id_is i m.
Proof.
  intros H. destruct (id_is_key _ _ H) as [k [Hn Hi]].
  unfold same_row, id_is. rewrite Hn, Hi.
  destruct (id m) as [j | ]; [apply Z.eqb_sym | reflexivity].
Qed.

Lemma matching_found (i : string) (s : Session) (n : Note) :
  matching i s = Some n -> In n s /\ id_is i n = true.
Proof. apply find_some. Qed.

Lemma same_row_matching (i : string) (s : Session) (n : Note) :
  matching i s = Some n -> forall m, same_row n m = id_is i m.
Proof.
  intros H m. apply same_row_id_is. now apply matching_found in H.
Qed.

(** A change of the designated rows that keeps their key. *)
Lemma matching_map (i : string) (f : Note -> Note) (s : Session) :
  (forall m, id (f m) = id m) ->
  matching i (map (fun m => if id_is i m then f m else m) s) =
  option_map f (matching i s).
Proof.
  intros Hf. unfold matching.
  induction s as [ | m s IH]; [reflexivity | ].
  simpl. destruct (id_is i m) eqn:E.
  - assert (E' : id_is i (f m) = true).
    { unfold id_is in *. now rewrite Hf. }
    now rewrite E'.
  - now rewrite E.
Qed.

Lemma matching_filter (i : string) (s : Session) :
  matching i (filter (fun m => negb (id_is i m)) s) = None.
Proof.
  unfold matching.
  induction s as [ | m s IH]; [reflexivity | ].
  simpl. destruct (id_is i m) eqn:E; simpl; [exact IH | ].
  now rewrite E.
Qed.

Lemma update_matching (i : string) (s : Session) (n : Note)
  (f : Note -> Note) :
  matching i s = Some n ->
  update n f s = map (fun m => if id_is i m then f m else m) s.
Proof.
  intros H. unfold update. apply map_ext.
  intros m. now rewrite (same_row_matching _ _ H).
Qed.



Lemma map_id_overwrite (i : string) (f : Note -> Note) (s : Session) :
  (forall m, id (f m) = id m) ->
  map id (map (fun m => if id_is i m then f m else m) s) = map id s.
Proof.
  intros Hf. rewrite map_map. apply map_ext.
  intros m. destruct (id_is i m); [apply Hf | reflexivity].
Qed.

Lemma max_id_bound (s : Session) (n : Note) (k : Z) :
  In n s -> id n = Some k -> exists m, max_id s = Some m /\ k <= m.
Proof.
  induction s as [ | r s IH]; simpl; [contradiction | ].
  intros [-> | Hin] Hk.
  - rewrite Hk. destruct (max_id s) as [j | ]; eexists; split;
      try reflexivity; lia.
  - destruct (IH Hin Hk) as [m [Hm Hle]]. rewrite Hm.
    destruct (id r) as [j | ]; eexists; split; try reflexivity; lia.
Qed.

Lemma next_id_fresh (s : Session) (n : Note) :
  In n s -> id n <> Some (next_id s).
Proof.
  intros Hin Hk. destruct (max_id_bound s n Hin Hk) as [m [Hm Hle]].
  unfold next_id in Hle. rewrite Hm in Hle. lia.
Qed.

(** The primary keys stay unique under the three changes of the table. *)
Lemma insert_keeps_keys_unique (s : Session) (t de ca cb p : value) :
  NoDup (map id s) ->
  NoDup (map id (s ++ [row (next_id s) t de ca cb p])).
Proof.
  intros Hnd. rewrite map_app. simpl.
  apply NoDup_app; [exact Hnd | repeat constructor; intros [] | ].
  intros k Hk [<- | []].
  apply in_map_iff in Hk. destruct Hk as [n [Hn Hin]].
  now apply (next_id_fresh s n Hin).
Qed.

Lemma overwrite_keeps_keys_unique (i : string) (t de ca cb p : value)
  (s : Session) :
  NoDup (map id s) ->
  NoDup (map id
    (map (fun m => if id_is i m then overwrite t de ca cb p m else m) s)).
Proof. intros Hnd. now rewrite map_id_overwrite. Qed.

Lemma filter_keeps_keys_unique (f : Note -> bool) (s : Session) :
  NoDup (map id s) -> NoDup (map id (filter f s)).
Proof.
  induction s as [ | m s IH]; simpl; intros Hnd; [constructor | ].
  inversion Hnd as [ | x l Hnotin Hnd']; subst.
  destruct (f m); simpl; [ | now apply IH].
  constructor; [ | now apply IH].
  intros Hin. apply Hnotin.
  apply in_map_iff in Hin. destruct Hin as [n [Hn Hin]].
  apply filter_In in Hin. rewrite <- Hn. apply in_map. tauto.
Qed.





End SessionFacts.

Section KeyFacts.







End KeyFacts.

Section StorageFacts.

Lemma text_bindable (v : value) : is_text v = true -> bindable v = true.
Proof. destruct v; simpl; congruence. Qed.

Lemma integer_bindable (v : value) : is_integer v = true -> bindable v = true.
Proof. destruct v; simpl; congruence. Qed.

Lemma storable_bindable (n : Note) :
  storable (title n) (description n) (created_at n) (created_by n)
    (priority n) = true ->
  row_bindable n = true.
Proof.
  unfold storable, row_bindable. intros H.
  repeat (apply andb_prop in H; destruct H as [? H]).
  repeat (apply andb_true_intro; split);
    auto using text_bindable, integer_bindable.
Qed.

Lemma stored_bindable (n : Note) : stored_row n = true -> row_bindable n = true.
Proof.
  unfold stored_row. intros H. apply andb_prop in H.
  now apply storable_bindable.
Qed.

Lemma committed_stored (s : Session) (n : Note) :
  committed s -> In n s -> stored_row n = true.
Proof.
  unfold committed. intros H Hn. apply andb_prop in H.
  now apply (proj1 (forallb_forall _ _) (proj1 H)).
Qed.





Lemma flushable_filter (f : Note -> bool) (s : Session) :
  committed s -> flushable (filter f s) = true.
Proof.
  intros H. unfold flushable. apply forallb_forall.
  intros n Hn. apply filter_In in Hn. apply stored_bindable.
  apply committed_stored with s; tauto.
Qed.


Lemma commit_goes_through (s : Session) :
  flushable s = true -> session_commit s = (s, Ok tt).
Proof. intros H. unfold session_commit. now rewrite H. Qed.



(** What a removal of a stored note does. *)
Lemma remove_outcome (s : Session) (i : string) (n : Note)
  (b : option value) :
  matching i s = Some n ->
  committed s ->
  app (instance_route i) "DELETE" b s =
    (filter (fun m => negb (id_is i m)) s, Ok (mkResponse 204 NoBody None)).
Proof.
  intros Hn Hs. rewrite app_remove.
  unfold InstanceEndpoint_delete, bind, query_first.
  fold (matching i s). rewrite Hn.
  unfold session_delete.
  assert (E : filter (fun m => negb (same_row n m)) s =
              filter (fun m => negb (id_is i m)) s).
  { apply filter_ext. intros m. now rewrite (same_row_matching _ _ Hn). }
  rewrite E.
  pose proof (@flushable_filter (fun m => negb (id_is i m)) s Hs) as Hf.
  rewrite Hf. now rewrite (@commit_goes_through _ Hf).
Qed.

End StorageFacts.

(** ** POST /notes and GET /notes *)




(** A five-field body is no guarantee of an insertion either: a title
    that is a list cannot be bound, the commit is refused and the table
    stays as it was. *)
Lemma post_unstorable_raises :
  has_fields body_list_title (VList []) (VStr "d") (VStr "t") (VStr "u")
    (VInt 1) /\
  app collection_route "POST" (Some body_list_title) one_note =
    (one_note, Raise StorageError).
Proof. split; [repeat split | reflexivity]. Qed.

(** ** GET /notes/{id} *)



(** ** PUT /notes/{id} *)




(** ** DELETE /notes/{id} *)

Section DeleteFacts.



End DeleteFacts.



(** ** Dispatch *)

Section DispatchFacts.
Variable V : Type.

Lemma dict_get_set_same (d : dict V) (k : string) (v : V) :
  dict_get (dict_set d k v) k = Some v.
Proof.
  induction d as [ | [k' v'] d IH]; simpl.
  - now rewrite String.eqb_refl.
  - destruct (String.eqb k' k) eqn:E; simpl; now rewrite E.
Qed.

Lemma dict_get_set_other (d : dict V) (k k' : string) (v : V) :
  k <> k' -> dict_get (dict_set d k v) k' = dict_get d k'.
Proof.
  intros Hk. induction d as [ | [k0 v0] d IH]; simpl.
  - destruct (String.eqb k k') eqn:E; [ | reflexivity].
    apply String.eqb_eq in E. contradiction.
  - destruct (String.eqb k0 k) eqn:E; simpl.
    + apply String.eqb_eq in E. subst k0.
      destruct (String.eqb k k') eqn:E'; [ | reflexivity].
      apply String.eqb_eq in E'. contradiction.
    + now rewrite IH.
Qed.

Lemma dict_keys_set (d : dict V) (k k' : string) (v : V) :
  In k' (dict_keys (dict_set d k v)) -> k' = k \/ In k' (dict_keys d).
Proof.
  unfold dict_keys.
  induction d as [ | [k0 v0] d IH]; simpl.
  - intros [<- | []]. now left.
  - destruct (String.eqb k0 k); simpl; intros [<- | H]; auto.
    destruct (IH H); auto.
Qed.

Lemma is_param_in (params : list string) (k : string) :
  In k params -> is_param params k = true.
Proof.
  intros H. unfold is_param. apply existsb_exists.
  exists k. split; [exact H | apply String.eqb_refl].
Qed.

(** The positional arguments are the keyword arguments at the names of
    the parameters, when every parameter has one. *)
Lemma positional_all (params : list string) (kwargs : dict V) :
  (forall a, In a params -> dict_get kwargs a <> None) ->
  exists args,
    positional params kwargs = Ok args /\
    map Some args = map (dict_get kwargs) params.
Proof.
  induction params as [ | a params IH]; intros H.
  - now exists [].
  - destruct IH as [args [Hargs Hmap]].
    { intros a' Ha'. apply H. now right. }
    simpl. destruct (dict_get kwargs a) as [v | ] eqn:E.
    + exists (v :: args). rewrite Hargs. simpl. now rewrite Hmap.
    + exfalso. now apply (H a (or_introl eq_refl)).
Qed.

End DispatchFacts.

Section SelectFacts.

Lemma unsatisfied_nil (wanted : list string) (available : dict arg) :
  unsatisfied_args wanted available = [] ->
  forall a, In a wanted -> dict_get available a <> None.
Proof.
  unfold unsatisfied_args, dict_has.
  induction wanted as [ | w wanted IH]; simpl; [contradiction | ].
  destruct (dict_get available w) as [v | ] eqn:E; simpl; [ | discriminate].
  intros Hnil a [<- | Ha]; [congruence | now apply IH].
Qed.

(** The comprehension holds the available value of each wanted name and
    has no other key than the ones it started from. *)
Lemma selected_fold (available : dict arg) (wanted : list string) :
  (forall a, In a wanted -> dict_get available a <> None) ->
  forall acc, exists d,
    fold_left
      (fun acc arg_name =>
         result_bind acc (fun d =>
           match dict_get available arg_name with
           | Some a => Ok (dict_set d arg_name a)
           | None => Raise (KeyError arg_name)
           end))
      wanted (Ok acc) = Ok d /\
    (forall a, In a wanted -> dict_get d a = dict_get available a) /\
    (forall a, ~ In a wanted -> dict_get d a = dict_get acc a) /\
    (forall a, In a (dict_keys d) -> In a (dict_keys acc) \/ In a wanted).
Proof.
  induction wanted as [ | w wanted IH]; intros H acc.
  - exists acc. simpl. repeat split; auto; contradiction.
  - simpl. destruct (dict_get available w) as [v | ] eqn:E.
    2:{ exfalso. now apply (H w (or_introl eq_refl)). }
    destruct (IH (fun a Ha => H a (or_intror Ha)) (dict_set acc w v))
      as [d (Hd & Hin & Hout & Hkeys)].
    exists d. split; [exact Hd | ]. split; [ | split].
    + intros a [<- | Ha].
      * destruct (in_dec string_dec w wanted) as [Hw | Hw]; [now apply Hin | ].
        rewrite (Hout w Hw), E. apply dict_get_set_same.
      * now apply Hin.
    + intros a Ha. rewrite Hout by tauto.
      apply dict_get_set_other. tauto.
    + intros a Ha. destruct (Hkeys a Ha) as [Hk | Hk]; [ | right; now right].
      apply dict_keys_set in Hk.
      destruct Hk as [-> | Hk]; [right; now left | now left].
Qed.

Lemma selected_all (available : dict arg) (wanted : list string) :
  (forall a, In a wanted -> dict_get available a <> None) ->
  exists d,
    selected_args wanted available = Ok d /\
    (forall a, In a wanted -> dict_get d a = dict_get available a) /\
    (forall a, In a (dict_keys d) -> In a wanted).
Proof.
  intros H.
  destruct (selected_fold available wanted H []) as [d (Hd & Hin & _ & Hk)].
  exists d. split; [exact Hd | split; [exact Hin | ]].
  intros a Ha. destruct (Hk a Ha) as [[] | Hw]. exact Hw.
Qed.

(** What [dispatch] does once the method is found: the handler's own
    result on the available values of its declared names, or the bad
    request. *)
Lemma dispatch_found (methods : dict Method) (request : Request)
  (m : Method) (s : Session) :
  dict_get methods (upper (method request)) = Some m ->
  match unsatisfied_args (parameters m) (available_args request) with
  | _ :: _ => dispatch methods request s = (s, Raise (HttpBadRequest ""))
  | [] =>
      exists args,
        map Some args =
          map (dict_get (available_args request)) (parameters m) /\
        dispatch methods request s = call m args s
  end.
Proof.
  intros Hm. unfold dispatch. rewrite Hm. cbv zeta.
  destruct (unsatisfied_args (parameters m) (available_args request))
    as [ | u us] eqn:E; [ | reflexivity].
  pose proof (unsatisfied_nil _ _ E) as Hav.
  destruct (selected_all (available_args request) (parameters m) Hav)
    as [d (Hd & Hin & Hkeys)].
  destruct (positional_all (parameters m) d) as [args [Hargs Hmap]].
  { intros a Ha. rewrite (Hin a Ha). now apply Hav. }
  exists args. split.
  - rewrite Hmap. apply map_ext_in. exact Hin.
  - unfold bind, lift. rewrite Hd.
    unfold call_kwargs, bind_kwargs.
    assert (Hall : forallb (is_param (parameters m)) (dict_keys d) = true).
    { apply forallb_forall. intros a Ha. apply is_param_in.
      now apply Hkeys. }
    now rewrite Hall, Hargs.
Qed.

End SelectFacts.

(** C5. A request to /notes or to /notes/{id} whose method has no
    handler on the endpoint of the route makes [dispatch] raise
    [HTTPMethodNotAllowed], the 405 condition, with the allowed methods
    GET, POST, PUT, DELETE; the table is left as it is. *)
Theorem method_not_allowed (r : route) (http_method : string)
  (b : option value) (s : Session) :
  handler_of r http_method = None ->
  app r http_method b s =
    (s, Raise (HTTPMethodNotAllowed "" ["GET"; "POST"; "PUT"; "DELETE"])) /\
  status_code (HTTPMethodNotAllowed "" ["GET"; "POST"; "PUT"; "DELETE"])
    = Some 405.
Proof.
  intros H. split; [ | reflexivity].
  destruct r as [ | i]; unfold app, serve, dispatch; cbn [method];
    unfold handler_of in H; now rewrite H.
Qed.

Lemma method_not_allowed_witness :
  handler_of collection_route "PATCH" = None /\
  app collection_route "PATCH" (Some body_A) one_note =
    (one_note,
     Raise (HTTPMethodNotAllowed "" ["GET"; "POST"; "PUT"; "DELETE"])).
Proof.
  assert (H : handler_of collection_route "PATCH" = None) by reflexivity.
  split; [exact H | ].
  exact (proj1 (@method_not_allowed collection_route "PATCH" (Some body_A)
                  one_note H)).
Defined.

(** The methods without a handler: on /notes everything but GET and
    POST, on /notes/{id} everything but GET, PUT and DELETE. *)
Lemma unsupported_methods (i : string) :
  handler_of collection_route "PATCH" = None /\
  handler_of collection_route "PUT" = None /\
  handler_of collection_route "DELETE" = None /\
  handler_of (instance_route i) "PATCH" = None /\
  handler_of (instance_route i) "POST" = None.
Proof. repeat split. Qed.

(** C6 (as amended). Once the method has a handler, [dispatch] raises
    [HttpBadRequest], the 400 condition, exactly when one of the names
    the handler declares is neither a path parameter nor [request], and
    then the table is left as it is; otherwise it calls the handler with
    the available values of exactly its declared names, in their order,
    and returns what the handler returns. Path parameters the handler
    does not declare play no part. *)
Theorem dispatch_binds_declared (methods : dict Method) (request : Request)
  (m : Method) (s : Session) :
  dict_get methods (upper (method request)) = Some m ->
  match unsatisfied_args (parameters m) (available_args request) with
  | _ :: _ =>
      dispatch methods request s = (s, Raise (HttpBadRequest "")) /\
      status_code (HttpBadRequest "") = Some 400
  | [] =>
      exists args,
        map Some args =
          map (dict_get (available_args request)) (parameters m) /\
        dispatch methods request s = call m args s
  end.
Proof.
  intros Hm. pose proof (dispatch_found methods request s Hm) as H.
  destruct (unsatisfied_args (parameters m) (available_args request));
    [exact H | split; [exact H | reflexivity]].
Qed.

Lemma dispatch_binds_declared_witness :
  dict_get (instance_endpoint person_resource) (upper "GET")
    = Some (instance_get person_resource) /\
  exists args,
    map Some args = [Some (PathArg "1")] /\
    dispatch (instance_endpoint person_resource)
      (mkRequest "GET" [("instance_id", "1")] None) one_note =
    call (instance_get person_resource) args one_note.
Proof.
  assert (H : dict_get (instance_endpoint person_resource) (upper "GET")
              = Some (instance_get person_resource)) by reflexivity.
  split; [exact H | ].
  exact (@dispatch_binds_declared (instance_endpoint person_resource)
           (mkRequest "GET" [("instance_id", "1")] None)
           (instance_get person_resource) one_note H).
Defined.

(** C6 as stated fails in its second direction: a path parameter that
    the handler does not request is no error. [GET] on the collection
    endpoint declares no argument; with a path parameter [instance_id]
    in the request it answers 200. *)
Lemma unrequested_parameter_is_ignored :
  dict_has (available_args (mkRequest "GET" [("instance_id", "1")] None))
    "instance_id" = true /\
  parameters (collection_get person_resource) = [] /\
  dispatch (collection_endpoint person_resource)
    (mkRequest "GET" [("instance_id", "1")] None) one_note =
  (one_note,
   Ok (mkResponse 200 (encode (notes_document one_note)) json_type)).
Proof. repeat split. Qed.

(** ** Rendering and the entity *)



(** C8 (as amended). [to_json] yields the six entries [id], [title],
    [description], [created_at], [created_by], [priority]. [from_json]
    on that mapping raises a [TypeError], for the constructor has no
    parameter [id]; on the mapping without its [id] entry it succeeds
    and builds a note with the same five field values and no
    identifier. *)
Theorem from_json_of_to_json (n : Note) :
  to_json n = Ok (("id", id_value n) :: rendered n) /\
  from_json (VDict (("id", id_value n) :: rendered n)) = Raise TypeError /\
  from_json (VDict (rendered n)) =
    Ok (mkNote None (title n) (description n) (created_at n) (created_by n)
          (priority n)).
Proof. repeat split. Qed.

(** C8 as stated fails: the output of [to_json] is no valid input of
    [from_json]. *)
Lemma from_json_rejects_to_json :
  exists d, to_json note_A = Ok d /\ from_json (VDict d) = Raise TypeError.
Proof. eexists. split; reflexivity. Qed.

(** ** PUT on a missing identifier *)



(** ** The bodies of the instance and of the collection routes *)

Section BodyFacts.

(** A response of PUT /notes/{id}, when there is one, is 201 with the
    rendering of a note. *)
Lemma put_response (i : string) (b : option value) (s : Session)
  (r : Response) :
  snd (app (instance_route i) "PUT" b s) = Ok r ->
  exists m, r = mkResponse 201 (encode (VDict (rendered m))) json_type.
Proof.
  rewrite app_update.
  unfold InstanceEndpoint_put, bind, json, lift, query_first, setattr.
  cbn [parsed_body].
  destruct b as [data | ]; [ | discriminate].
  cbn [ret].
  destruct (find (id_is i) s) as [note | ].
  2:{ destruct (subscript data "title"); discriminate. }
  destruct (subscript data "title"); [ | discriminate].
  destruct (subscript data "description"); [ | discriminate].
  destruct (subscript data "created_at"); [ | discriminate].
  destruct (subscript data "created_by"); [ | discriminate].
  destruct (subscript data "priority"); [ | discriminate].
  unfold session_add, session_commit, load, ret.
  repeat (cbv beta iota zeta;
          match goal with
          | |- context [if flushable ?t then _ else _] =>
              destruct (flushable t)
          | |- context [match find ?f ?t with _ => _ end] =>
              destruct (find f t)
          | |- context [match id ?m with _ => _ end] => destruct (id m)
          end);
    cbv beta iota zeta; cbn [snd fst]; try discriminate;
    intros [= <-]; eexists; reflexivity.
Qed.

End BodyFacts.

(** C10. For an identifier with a matching row, the body of GET
    /notes/{id} (200) and every body that PUT /notes/{id} returns (201)
    are objects with exactly the keys [title], [description],
    [created_at], [created_by], [priority], the properties of the
    resource, among which [id] is not; every entry of the list in the
    body of GET /notes has the key [id] before these five, and the entry
    of the matching row carries its identifier. *)
Theorem instance_bodies_omit_id (s : Session) (i : string) (n : Note)
  (b : option value) :
  matching i s = Some n ->
  properties person_resource =
    ["title"; "description"; "created_at"; "created_by"; "priority"] /\
  (exists d,
     snd (app (instance_route i) "GET" b s) =
       Ok (mkResponse 200 (encode (VDict d)) json_type) /\
     dict_keys d = properties person_resource /\
     dict_has d "id" = false) /\
  (forall data r,
     snd (app (instance_route i) "PUT" (Some data) s) = Ok r ->
     exists d,
       r = mkResponse 201 (encode (VDict d)) json_type /\
       dict_keys d = properties person_resource /\
       dict_has d "id" = false) /\
  (exists r,
     snd (app collection_route "GET" b s) = Ok r /\
     (forall e, In e (listed r) ->
        exists d, e = VDict d /\
                  dict_keys d = "id" :: properties person_resource) /\
     In (note_entry n) (listed r) /\
     subscript (note_entry n) "id" = Ok (id_value n)).
Proof.
  intros Hn.
  split; [reflexivity | split; [ | split]].
  - exists (rendered n). rewrite fetch_outcome, Hn. repeat split.
  - intros data r Hr. destruct (put_response _ _ _ Hr) as [m ->].
    exists (rendered m). repeat split.
  - exists (mkResponse 200 (encode (notes_document s)) json_type).
    rewrite app_list. split; [reflexivity | ].
    unfold listed; simpl. split; [ | split; [ | reflexivity]].
    + intros e He. apply in_map_iff in He. destruct He as [m [<- _]].
      eexists. split; reflexivity.
    + apply in_map. now apply matching_found in Hn.
Qed.

Lemma instance_bodies_omit_id_witness :
  matching "2" two_notes = Some note_B /\
  (exists d,
     snd (app (instance_route "2") "GET" None two_notes) =
       Ok (mkResponse 200 (encode (VDict d)) json_type) /\
     dict_keys d = properties person_resource /\
     dict_has d "id" = false) /\
  snd (app (instance_route "2") "PUT" (Some body_A) two_notes) =
    Ok (mkResponse 201
          (encode (VDict (fields (VStr "A") (VStr "d") (VStr "t") (VStr "u")
                            (VInt 1))))
          json_type) /\
  (exists d,
     mkResponse 201
       (encode (VDict (fields (VStr "A") (VStr "d") (VStr "t") (VStr "u")
                         (VInt 1))))
       json_type =
     mkResponse 201 (encode (VDict d)) json_type /\
     dict_keys d = properties person_resource /\
     dict_has d "id" = false).
Proof.
  assert (Hm : matching "2" two_notes = Some note_B) by reflexivity.
  assert (Hp : snd (app (instance_route "2") "PUT" (Some body_A) two_notes) =
               Ok (mkResponse 201
                     (encode (VDict (fields (VStr "A") (VStr "d") (VStr "t")
                                       (VStr "u") (VInt 1))))
                     json_type)) by reflexivity.
  pose proof (@instance_bodies_omit_id two_notes "2" note_B None Hm) as H.
  destruct H as (_ & Hget & Hput & _).
  split; [exact Hm | split; [exact Hget | split; [exact Hp | ]]].
  exact (Hput body_A _ Hp).
Defined.

(** ** Outcomes of the handlers *)

Create HintDb outcome.

Section OutcomeRules.
Variable I : Session -> Session -> Prop.
Variable E : exn -> Prop.
Hypothesis I_refl : forall s, I s s.
Hypothesis I_trans : forall a b c, I a b -> I b c -> I a c.
Hypothesis E_interpreter : forall e, interpreter_error e -> E e.

Lemma outcome_ret (A : Type) (R : A -> Prop) (a : A) :
  R a -> outcome I R E (ret a).
Proof. intros H s. split; [apply I_refl | exact H]. Qed.

Lemma outcome_raise (A : Type) (R : A -> Prop) (e : exn) :
  interpreter_error e -> outcome I R E (raise e).
Proof. intros H s. split; [apply I_refl | now apply E_interpreter]. Qed.

Lemma outcome_lift (A : Type) (R : A -> Prop) (r : result A) :
  match r with Ok a => R a | Raise e => interpreter_error e end ->
  outcome I R E (lift r).
Proof.
  intros H s. split; [apply I_refl | ].
  simpl. destruct r; [exact H | now apply E_interpreter].
Qed.

Lemma outcome_bind (A B : Type) (R : A -> Prop) (R' : B -> Prop)
  (m : M A) (k : A -> M B) :
  outcome I R E m ->
  (forall a, R a -> outcome I R' E (k a)) ->
  outcome I R' E (bind m k).
Proof.
  intros Hm Hk s. unfold bind.
  destruct (Hm s) as [HI HR].
  destruct (m s) as [s' [a | e]]; simpl in *.
  - destruct (Hk a HR s') as [HI' HR'].
    split; [now apply I_trans with s' | exact HR'].
  - split; assumption.
Qed.

Lemma outcome_subscript (data : value) (key : string) :
  outcome I (fun _ => True) E (lift (subscript data key)).
Proof.
  apply outcome_lift. unfold subscript.
  destruct data; try reflexivity.
  now destruct (dict_get entries key).
Qed.

Lemma outcome_json (request : Request) :
  outcome I (fun _ => True) E (json request).
Proof.
  unfold json. destruct (parsed_body request).
  - now apply outcome_ret.
  - now apply outcome_raise.
Qed.

Lemma outcome_query_all : outcome I (fun _ => True) E query_all.
Proof. intros s. split; [apply I_refl | exact Logic.I]. Qed.

Lemma outcome_query_first (i : string) :
  outcome I (fun o => forall n, o = Some n -> id n <> None) E
    (query_first i).
Proof.
  intros s. split; [apply I_refl | ].
  simpl. intros n Hn. apply find_some in Hn.
  destruct (id_is_key _ _ (proj2 Hn)) as [k [Hk _]]. congruence.
Qed.

Lemma outcome_add_loaded (note : Note) :
  id note <> None -> outcome I (fun _ => True) E (session_add note).
Proof.
  intros Hid s. unfold session_add.
  destruct (id note); [ | contradiction].
  split; simpl; auto.
Qed.

Lemma outcome_commit : outcome I (fun _ => True) E session_commit.
Proof.
  intros s. unfold session_commit.
  destruct (flushable s).
  - split; [apply I_refl | exact Logic.I].
  - split; [apply I_refl | now apply E_interpreter].
Qed.

Lemma outcome_load (note : Note) : outcome I (fun _ => True) E (load note).
Proof.
  intros s. unfold load.
  destruct (find (same_row note) s); split; simpl; auto.
Qed.

Lemma render_raises (resource : RestResource) (n : Note) :
  match render resource n with
  | Ok _ => True
  | Raise e => interpreter_error e
  end.
Proof.
  unfold render.
  assert (H : forall names acc,
            match acc with Ok _ => True | Raise e => interpreter_error e end ->
            match fold_left
                    (fun acc name =>
                       result_bind acc (fun d =>
                       result_bind (getattr n name) (fun v =>
                       Ok (dict_set d name v))))
                    names acc
            with Ok _ => True | Raise e => interpreter_error e end).
  { induction names as [ | name names IH]; intros acc Hacc; [exact Hacc | ].
    simpl. apply IH. destruct acc as [d | e]; [ | exact Hacc].
    simpl. unfold getattr.
    repeat match goal with
           | |- context [if ?b then _ else _] => destruct b
           end; reflexivity. }
  now apply H.
Qed.

Lemma outcome_render_and_encode (resource : RestResource) (n : Note) :
  outcome I (fun b => b <> NoBody) E (lift (render_and_encode resource n)).
Proof.
  apply outcome_lift. unfold render_and_encode.
  pose proof (render_raises resource n) as H.
  destruct (render resource n); simpl; [discriminate | exact H].
Qed.

Lemma outcome_render_each (resource : RestResource) (l : list Note) :
  outcome I (fun _ => True) E (lift (render_each resource l)).
Proof.
  apply outcome_lift.
  induction l as [ | n l IH]; simpl; [exact Logic.I | ].
  pose proof (render_raises resource n) as H.
  destruct (render resource n); simpl; [ | exact H].
  destruct (render_each resource l); simpl; [exact Logic.I | exact IH].
Qed.

Hypothesis I_insert :
  forall s t de ca cb p, I s (s ++ [row (next_id s) t de ca cb p]).
Hypothesis I_delete :
  forall s note, I s (filter (fun n => negb (same_row note n)) s).
Hypothesis I_update :
  forall s note f, (forall n, id (f n) = id n) -> I s (update note f s).

Lemma outcome_add (note : Note) :
  outcome I (fun _ => True) E (session_add note).
Proof.
  intros s. unfold session_add.
  destruct (id note); [split; simpl; auto | ].
  cbv zeta.
  match goal with
  | |- context [if flushable ?t then _ else _] => destruct (flushable t)
  end.
  - split; [apply I_insert | exact Logic.I].
  - split; [apply I_refl | now apply E_interpreter].
Qed.

Lemma outcome_delete (note : Note) :
  outcome I (fun _ => True) E (session_delete note).
Proof.
  intros s. unfold session_delete. cbv zeta.
  match goal with
  | |- context [if flushable ?t then _ else _] => destruct (flushable t)
  end.
  - split; [apply I_delete | exact Logic.I].
  - split; [apply I_refl | now apply E_interpreter].
Qed.

Lemma outcome_setattr (o : option Note) (name : string)
  (set : value -> Note -> Note) (v : value) :
  (forall n, id (set v n) = id n) ->
  outcome I (fun _ => o <> None) E (setattr o name set v).
Proof.
  intros Hset. unfold setattr. destruct o as [note | ].
  - intros s. split; [now apply I_update | discriminate].
  - now apply outcome_raise.
Qed.

Hint Resolve outcome_subscript outcome_json outcome_query_all
  outcome_query_first outcome_commit outcome_load outcome_add
  outcome_delete outcome_render_each : outcome.

Ltac step :=
  eapply outcome_bind; [solve [eauto with outcome] | intros ? _].

Ltac step_as x Hx :=
  eapply outcome_bind; [solve [eauto with outcome] | intros x Hx].

Lemma answer_json (st : Z) (b : Body) :
  In st [200; 201; 404] -> b <> NoBody ->
  answer (mkResponse st b json_type).
Proof. intros Hst Hb. left. repeat split; assumption. Qed.

Lemma outcome_collection_get (resource : RestResource) :
  outcome I answer E (CollectionEndpoint_get resource).
Proof.
  unfold CollectionEndpoint_get. step. step. step.
  apply outcome_ret. apply answer_json; [simpl; tauto | discriminate].
Qed.

Lemma outcome_collection_post (request : Request) :
  outcome I answer E (CollectionEndpoint_post request).
Proof.
  unfold CollectionEndpoint_post. do 9 step.
  apply outcome_ret. apply answer_json; [simpl; tauto | discriminate].
Qed.

Lemma outcome_instance_get (resource : RestResource) (i : string) :
  outcome I answer E (InstanceEndpoint_get resource i).
Proof.
  unfold InstanceEndpoint_get. step_as instance Hinstance.
  destruct instance as [instance | ].
  - eapply outcome_bind; [apply outcome_render_and_encode | ].
    intros b Hb. apply outcome_ret. apply answer_json; [simpl; tauto | exact Hb].
  - apply outcome_ret. apply answer_json; [simpl; tauto | discriminate].
Qed.

Lemma outcome_instance_put (resource : RestResource) (request : Request)
  (i : string) :
  outcome I answer E (InstanceEndpoint_put resource request i).
Proof.
  unfold InstanceEndpoint_put. step. step_as note Hnote.
  repeat (step; eapply outcome_bind;
          [apply outcome_setattr; reflexivity | intros _ _]).
  destruct note as [note | ]; [ | now apply outcome_raise].
  eapply outcome_bind;
    [apply outcome_add_loaded; now apply Hnote | intros _ _].
  step. step.
  eapply outcome_bind; [apply outcome_render_and_encode | ].
  intros b Hb. apply outcome_ret. apply answer_json; [simpl; tauto | exact Hb].
Qed.

Lemma outcome_instance_delete (i : string) :
  outcome I answer E (InstanceEndpoint_delete i).
Proof.
  unfold InstanceEndpoint_delete. step_as note Hnote.
  destruct note as [note | ]; [ | now apply outcome_raise].
  step. step. apply outcome_ret. right. repeat split.
Qed.

End OutcomeRules.

(** ** Every request of the application *)

Section ServeFacts.
Variable resource : RestResource.

(** The handler a request reaches, by the route and the method name in
    upper case. *)
Lemma serve_cases (r : route) (m : string) (b : option value) (s : Session) :
  serve resource r m b s =
  match r with
  | collection_route =>
      if String.eqb "GET" (upper m)
      then CollectionEndpoint_get resource s
      else if String.eqb "POST" (upper m)
      then CollectionEndpoint_post (mkRequest m [] b) s
      else (s, Raise (HTTPMethodNotAllowed "" DEFAULT_METHODS))
  | instance_route i =>
      if String.eqb "GET" (upper m)
      then InstanceEndpoint_get resource i s
      else if String.eqb "PUT" (upper m)
      then InstanceEndpoint_put resource
             (mkRequest m [("instance_id", i)] b) i s
      else if String.eqb "DELETE" (upper m)
      then InstanceEndpoint_delete i s
      else (s, Raise (HTTPMethodNotAllowed "" DEFAULT_METHODS))
  end.
Proof.
  destruct r as [ | i]; unfold serve, dispatch; cbn [method];
    generalize (upper m); intros u.
  - change (dict_get (collection_endpoint resource) u)
      with (if String.eqb "GET" u then Some (collection_get resource)
            else if String.eqb "POST" u then Some collection_post
            else None).
    destruct (String.eqb "GET" u); [reflexivity | ].
    destruct (String.eqb "POST" u); reflexivity.
  - change (dict_get (instance_endpoint resource) u)
      with (if String.eqb "GET" u then Some (instance_get resource)
            else if String.eqb "PUT" u then Some (instance_put resource)
            else if String.eqb "DELETE" u then Some instance_delete
            else None).
    destruct (String.eqb "GET" u); [reflexivity | ].
    destruct (String.eqb "PUT" u); [reflexivity | ].
    destruct (String.eqb "DELETE" u); reflexivity.
Qed.

(** An outcome that every handler has, and the 405 of the dispatcher
    too, is the outcome of every request. *)
Lemma outcome_serve (I : Session -> Session -> Prop) (E : exn -> Prop)
  (r : route) (m : string) (b : option value) :
  (forall s, I s s) ->
  (forall a b c, I a b -> I b c -> I a c) ->
  (forall e, interpreter_error e -> E e) ->
  E (HTTPMethodNotAllowed "" DEFAULT_METHODS) ->
  (forall s t de ca cb p, I s (s ++ [row (next_id s) t de ca cb p])) ->
  (forall s note, I s (filter (fun n => negb (same_row note n)) s)) ->
  (forall s note f, (forall n, id (f n) = id n) -> I s (update note f s)) ->
  outcome I answer E (serve resource r m b).
Proof.
  intros Hrefl Htrans HE H405 Hins Hdel Hupd s.
  rewrite serve_cases. destruct r as [ | i].
  - destruct (String.eqb "GET" (upper m)).
    { now apply outcome_collection_get. }
    destruct (String.eqb "POST" (upper m)).
    { now apply outcome_collection_post. }
    split; [apply Hrefl | exact H405].
  - destruct (String.eqb "GET" (upper m)).
    { now apply outcome_instance_get. }
    destruct (String.eqb "PUT" (upper m)).
    { now apply outcome_instance_put. }
    destruct (String.eqb "DELETE" (upper m)).
    { now apply outcome_instance_delete. }
    split; [apply Hrefl | exact H405].
Qed.

End ServeFacts.

Section UpperFacts.

Lemma upper_ascii_idempotent (c : ascii) :
  upper_ascii (upper_ascii c) = upper_ascii c.
Proof. destruct c as [[] [] [] [] [] [] [] []]; reflexivity. Qed.

Lemma upper_idempotent (m : string) : upper (upper m) = upper m.
Proof.
  induction m as [ | c m IH]; [reflexivity | ].
  simpl. now rewrite upper_ascii_idempotent, IH.
Qed.

Lemma update_keeps_ids (note : Note) (f : Note -> Note) (s : Session) :
  (forall n, id (f n) = id n) -> map id (update note f s) = map id s.
Proof.
  intros Hf. unfold update. rewrite map_map. apply map_ext.
  intros n. destruct (same_row note n); [apply Hf | reflexivity].
Qed.

End UpperFacts.

(** X1. Whatever the resource, the route, the method and the body, a
    response that a request returns is 200, 201 or 404 with a body and
    the JSON content type, or 204 with neither; and an exception that a
    request raises is never the bad request of the dispatcher: each of
    the two routes provides what its handlers declare. *)
Theorem every_request_answers (resource : RestResource) (r : route)
  (m : string) (b : option value) (s : Session) :
  match snd (serve resource r m b s) with
  | Ok response => answer response
  | Raise e => forall message, e <> HttpBadRequest message
  end.
Proof.
  apply (@outcome_serve resource (fun _ _ => True)
           (fun e => forall message, e <> HttpBadRequest message) r m b);
    auto; try discriminate.
  intros e He message ->. discriminate.
Qed.

(** X2. No request makes two rows share a primary key: from a table
    with unique keys every request, whatever its outcome, leaves a table
    with unique keys. *)
Theorem requests_keep_keys_unique (resource : RestResource) (r : route)
  (m : string) (b : option value) (s : Session) :
  keys_unique s -> keys_unique (fst (serve resource r m b s)).
Proof.
  apply (@outcome_serve resource
           (fun s s' => keys_unique s -> keys_unique s')
           (fun _ => True) r m b); auto.
  - intros s0 t de ca cb p. apply insert_keeps_keys_unique.
  - intros s0 note. apply filter_keeps_keys_unique.
  - intros s0 note f Hf. unfold keys_unique.
    now rewrite update_keeps_ids.
Qed.

Lemma requests_keep_keys_unique_witness :
  keys_unique two_notes /\
  keys_unique (fst (app collection_route "POST" (Some body_A) two_notes)).
Proof.
  assert (H : keys_unique two_notes).
  { repeat constructor; simpl; intuition discriminate. }
  split; [exact H | ].
  exact (@requests_keep_keys_unique person_resource collection_route "POST"
           (Some body_A) two_notes H).
Defined.

(** X3. An update never touches a primary key: whatever the identifier
    and the body, and whether it returns or raises, PUT /notes/{id}
    leaves the sequence of the keys of the table as it was. *)
Theorem put_keeps_keys (resource : RestResource) (i : string)
  (b : option value) (s : Session) :
  map id (fst (serve resource (instance_route i) "PUT" b s)) = map id s.
Proof.
  rewrite serve_cases.
  change (String.eqb "GET" (upper "PUT")) with false.
  change (String.eqb "PUT" (upper "PUT")) with true.
  cbv iota.
  apply (@outcome_instance_put (fun s s' => map id s' = map id s)
           (fun _ => True)); auto.
  - intros a b0 c Hab Hbc. congruence.
  - intros s0 note f Hf. now apply update_keeps_ids.
Qed.

(** X4. A GET changes nothing: on both routes, for every spelling of
    the method name and every body, the table after the request is the
    table before it. *)
Theorem get_is_read_only (resource : RestResource) (r : route)
  (m : string) (b : option value) (s : Session) :
  upper m = "GET" ->
  fst (serve resource r m b s) = s.
Proof.
  intros Hm. rewrite serve_cases, Hm.
  change (String.eqb "GET" "GET") with true.
  destruct r as [ | i]; cbv iota.
  - apply (@outcome_collection_get (fun s s' => s' = s) (fun _ => True));
      auto. intros a b0 c Hab Hbc. congruence.
  - apply (@outcome_instance_get (fun s s' => s' = s) (fun _ => True));
      auto. intros a b0 c Hab Hbc. congruence.
Qed.

Lemma get_is_read_only_witness :
  upper "get" = "GET" /\
  fst (app (instance_route "2") "get" (Some body_A) two_notes) = two_notes.
Proof.
  assert (H : upper "get" = "GET") by reflexivity.
  split; [exact H | ].
  exact (@get_is_read_only person_resource (instance_route "2") "get"
           (Some body_A) two_notes H).
Defined.

(** X5. The dispatcher compares the method name in upper case: a
    request has the same outcome under every spelling of its method. *)
Theorem method_case_is_ignored (resource : RestResource) (r : route)
  (m : string) (b : option value) (s : Session) :
  serve resource r m b s = serve resource r (upper m) b s.
Proof.
  rewrite !serve_cases, upper_idempotent.
  destruct r as [ | i].
  - destruct (String.eqb "GET" (upper m)); [reflexivity | ].
    destruct (String.eqb "POST" (upper m)); reflexivity.
  - destruct (String.eqb "GET" (upper m)); [reflexivity | ].
    destruct (String.eqb "PUT" (upper m)); [reflexivity | ].
    destruct (String.eqb "DELETE" (upper m)); reflexivity.
Qed.

(** ** How the requests compose *)

Section FrameFacts.

Lemma id_is_same_key (i j : string) (m : Note) :
  id_is i m = true -> id_is j m = true -> int_of_text i = int_of_text j.
Proof.
  intros Hi Hj.
  destruct (id_is_key _ _ Hi) as [k [Hk Ei]].
  destruct (id_is_key _ _ Hj) as [k' [Hk' Ej]].
  congruence.
Qed.




Lemma matching_filter_other (i j : string) (s : Session) :
  int_of_text j <> int_of_text i ->
  matching j (filter (fun m => negb (id_is i m)) s) = matching j s.
Proof.
  intros Hij. unfold matching.
  induction s as [ | m s IH]; [reflexivity | ].
  simpl. destruct (id_is i m) eqn:Ei; simpl.
  - destruct (id_is j m) eqn:Ej; [ | exact IH].
    exfalso. apply Hij. symmetry. now apply id_is_same_key with m.
  - now rewrite IH.
Qed.


End FrameFacts.

(** X6. POST /notes inserts nothing for an incomplete body: when the
    body is no JSON object with all of the five fields (a field is
    missing, the document is no object, or [request.json()] raises), the
    handler raises, returns no response and leaves the table as it
    was. *)
Theorem post_incomplete_raises (b : option value) (s : Session) :
  has_five b = false ->
  exists e, app collection_route "POST" b s = (s, Raise e).
Proof.
  intros Hb. rewrite app_create.
  unfold CollectionEndpoint_post, bind, json, lift.
  cbn [parsed_body].
  destruct b as [data | ]; [ | now exists JSONDecodeError].
  cbn [ret].
  destruct data as [ | | | | | | d]; try (eexists; reflexivity).
  unfold has_five, init_params in Hb. cbn [forallb] in Hb.
  unfold dict_has in Hb. unfold subscript.
  destruct (dict_get d "title"); [ | eexists; reflexivity].
  destruct (dict_get d "description"); [ | eexists; reflexivity].
  destruct (dict_get d "created_at"); [ | eexists; reflexivity].
  destruct (dict_get d "created_by"); [ | eexists; reflexivity].
  destruct (dict_get d "priority"); [ | eexists; reflexivity].
  discriminate.
Qed.

Lemma post_incomplete_raises_witness :
  has_five (Some body_title_only) = false /\
  exists e,
    app collection_route "POST" (Some body_title_only) two_notes =
      (two_notes, Raise e).
Proof.
  assert (H : has_five (Some body_title_only) = false) by reflexivity.
  split; [exact H | ].
  exact (@post_incomplete_raises (Some body_title_only) two_notes H).
Defined.

(** X7. On a JSON object without one of the five fields, POST /notes
    raises the [KeyError] of the first missing field, in the order
    title, description, created_at, created_by, priority, and inserts
    nothing. *)
Theorem post_reports_first_missing (d : dict value)
  (present : list string) (missing : string) (rest : list string)
  (s : Session) :
  present ++ missing :: rest =
    ["title"; "description"; "created_at"; "created_by"; "priority"] ->
  (forall k, In k present -> dict_has d k = true) ->
  dict_has d missing = false ->
  app collection_route "POST" (Some (VDict d)) s =
    (s, Raise (KeyError missing)).
Proof.
  intros Hsplit Hpresent Hmissing.
  assert (Hget : forall k, In k present -> exists v, dict_get d k = Some v).
  { intros k Hk. specialize (Hpresent k Hk). unfold dict_has in Hpresent.
    destruct (dict_get d k) as [v | ]; [now exists v | discriminate]. }
  assert (Hnone : dict_get d missing = None).
  { unfold dict_has in Hmissing.
    now destruct (dict_get d missing). }
  rewrite app_create.
  unfold CollectionEndpoint_post, bind, json, lift, subscript. simpl.
  destruct present as [ | p1 [ | p2 [ | p3 [ | p4 [ | p5 present]]]]];
    simpl in Hsplit; injection Hsplit; intros; subst;
    repeat match goal with
           | |- context [dict_get d ?k] =>
               lazymatch goal with
               | H : dict_get d k = _ |- _ => rewrite H
               | _ =>
                   let v := fresh "v" in
                   let E := fresh "E" in
                   destruct (Hget k) as [v E];
                   [simpl; tauto | rewrite E]
               end
           end; try reflexivity.
  destruct present; discriminate.
Qed.

Lemma post_reports_first_missing_witness :
  app collection_route "POST" (Some body_title_only) one_note =
    (one_note, Raise (KeyError "description")).
Proof.
  apply (@post_reports_first_missing [("title", VStr "T")] ["title"]
           "description" ["created_at"; "created_by"; "priority"] one_note).
  - reflexivity.
  - intros k [<- | []]. reflexivity.
  - reflexivity.
Defined.









(** X12. An update is not atomic. On a body that has a title and no
    description, PUT on an identifier with a matching row raises at the
    second assignment and returns no response, but the first assignment
    has been made: the note the session holds for the row has the new
    title, and a GET through the same session renders it. *)
Theorem put_is_not_atomic (s : Session) (i : string) (n : Note)
  (data t : value) (e : exn) (b' : option value) :
  matching i s = Some n ->
  subscript data "title" = Ok t ->
  subscript data "description" = Raise e ->
  app (instance_route i) "PUT" (Some data) s =
    (map (fun m => if id_is i m then set_title t m else m) s, Raise e) /\
  snd (app (instance_route i) "GET" b'
         (map (fun m => if id_is i m then set_title t m else m) s)) =
  Ok (mkResponse 200 (encode (VDict (rendered (set_title t n)))) json_type).
Proof.
  intros Hn Ht Hde. split.
  - rewrite app_update.
    unfold InstanceEndpoint_put, bind, json, lift, query_first, setattr.
    cbn [parsed_body ret fst snd].
    fold (matching i s). rewrite Hn, Ht, Hde.
    now rewrite (@update_matching i s n _ Hn).
  - rewrite fetch_outcome. cbn [snd].
    rewrite matching_map by reflexivity. now rewrite Hn.
Qed.

Lemma put_is_not_atomic_witness :
  matching "1" one_note = Some note_A /\
  subscript body_title_only "title" = Ok (VStr "T") /\
  subscript body_title_only "description" = Raise (KeyError "description") /\
  app (instance_route "1") "PUT" (Some body_title_only) one_note =
    ([row 1 (VStr "T") (VStr "d") (VStr "t") (VStr "u") (VInt 1)],
     Raise (KeyError "description")).
Proof.
  assert (Hm : matching "1" one_note = Some note_A) by reflexivity.
  assert (Ht : subscript body_title_only "title" = Ok (VStr "T"))
    by reflexivity.
  assert (Hd : subscript body_title_only "description"
               = Raise (KeyError "description")) by reflexivity.
  split; [exact Hm | split; [exact Ht | split; [exact Hd | ]]].
  exact (proj1 (@put_is_not_atomic one_note "1" note_A body_title_only
                  _ _ None Hm Ht Hd)).
Defined.

(** X13. A delete of one note leaves the others as they were and is
    final for its own identifier: after a DELETE on an identifier with a
    matching row, on a table of committed rows, GET on a path that
    denotes another key answers what it answered before, a second DELETE
    on the identifier raises and changes nothing, and a PUT of a
    five-field body on it raises the [AttributeError] of the missing
    note. *)
Theorem delete_then_requests (s : Session) (i j : string) (k : Z)
  (n : Note) (b b' : option value) (data t de ca cb p : value) :
  matching i s = Some n ->
  committed s ->
  int_of_text j = Some k ->
  int_of_text i <> Some k ->
  has_fields data t de ca cb p ->
  snd (app (instance_route j) "GET" b'
         (fst (app (instance_route i) "DELETE" b s))) =
  snd (app (instance_route j) "GET" b' s) /\
  app (instance_route i) "DELETE" b'
    (fst (app (instance_route i) "DELETE" b s)) =
  (fst (app (instance_route i) "DELETE" b s), Raise (NameError "abort")) /\
  app (instance_route i) "PUT" (Some data)
    (fst (app (instance_route i) "DELETE" b s)) =
  (fst (app (instance_route i) "DELETE" b s), Raise (AttributeError "title")).
Proof.
  intros Hn Hs Hj Hij (Ht & _).
  rewrite (@remove_outcome s i n b Hn Hs). cbn [fst].
  split; [ | split].
  - rewrite !fetch_outcome. cbn [snd].
    rewrite matching_filter_other; [reflexivity | congruence].
  - rewrite app_remove.
    unfold InstanceEndpoint_delete, bind, query_first.
    fold (matching i (filter (fun m => negb (id_is i m)) s)).
    now rewrite matching_filter.
  - rewrite app_update.
    unfold InstanceEndpoint_put, bind, json, lift, query_first.
    cbn [parsed_body ret].
    fold (matching i (filter (fun m => negb (id_is i m)) s)).
    now rewrite matching_filter, Ht.
Qed.

Lemma delete_then_requests_witness :
  matching "1" two_notes = Some note_A /\
  committed two_notes /\
  int_of_text "2" = Some 2 /\
  int_of_text "1" <> Some 2 /\
  has_fields body_A (VStr "A") (VStr "d") (VStr "t") (VStr "u") (VInt 1) /\
  snd (app (instance_route "2") "GET" None
         (fst (app (instance_route "1") "DELETE" None two_notes))) =
  snd (app (instance_route "2") "GET" None two_notes).
Proof.
  assert (Hm : matching "1" two_notes = Some note_A) by reflexivity.
  assert (Hs : committed two_notes) by reflexivity.
  assert (Hj : int_of_text "2" = Some 2) by reflexivity.
  assert (Hij : int_of_text "1" <> Some 2) by discriminate.
  assert (Hf : has_fields body_A (VStr "A") (VStr "d") (VStr "t") (VStr "u")
                 (VInt 1)) by (repeat split).
  split; [exact Hm | split; [exact Hs | split; [exact Hj | split;
    [exact Hij | split; [exact Hf | ]]]]].
  exact (proj1 (@delete_then_requests two_notes "1" "2" 2 note_A None None
                  body_A _ _ _ _ _ Hm Hs Hj Hij Hf)).
Defined.

(** ** The dispatcher and its table of methods *)

Section MethodsFacts.

Lemma dict_get_map (A B : Type) (f : A -> B) (d : dict A) (k : string) :
  dict_get (map (fun kv => (fst kv, f (snd kv))) d) k =
  option_map f (dict_get d k).
Proof.
  induction d as [ | [k' v] d IH]; [reflexivity | ].
  simpl. now destruct (String.eqb k' k).
Qed.

Lemma is_param_spec (params : list string) (k : string) :
  is_param params k = true <-> In k params.
Proof.
  unfold is_param. rewrite existsb_exists. split.
  - intros [x [Hx E]]. apply String.eqb_eq in E. now subst.
  - intros H. exists k. split; [exact H | apply String.eqb_refl].
Qed.

End MethodsFacts.

(** X14. The table of methods of an endpoint holds, for each of GET,
    POST, PUT and DELETE, the attribute of the class with that name in
    lower case, when the class has one, and nothing else: a handler
    under any other name, such as [patch], is never registered. *)
Theorem init_registers_default_methods (attrs : dict Method) (k : string) :
  dict_get (RestEndpoint_init attrs) k =
  if is_param ["GET"; "POST"; "PUT"; "DELETE"] k
  then dict_get attrs (lower k)
  else None.
Proof.
  unfold RestEndpoint_init, DEFAULT_METHODS, register_method.
  cbn [fold_left].
  change (lower "GET") with "get". change (lower "POST") with "post".
  change (lower "PUT") with "put". change (lower "DELETE") with "delete".
  change (upper "GET") with "GET". change (upper "POST") with "POST".
  change (upper "PUT") with "PUT". change (upper "DELETE") with "DELETE".
  destruct (string_dec k "GET") as [-> | Hget].
  { change (lower "GET") with "get".
    change (is_param ["GET"; "POST"; "PUT"; "DELETE"] "GET") with true.
    destruct (dict_get attrs "get"), (dict_get attrs "post"),
      (dict_get attrs "put"), (dict_get attrs "delete"); reflexivity. }
  destruct (string_dec k "POST") as [-> | Hpost].
  { change (lower "POST") with "post".
    change (is_param ["GET"; "POST"; "PUT"; "DELETE"] "POST") with true.
    destruct (dict_get attrs "get"), (dict_get attrs "post"),
      (dict_get attrs "put"), (dict_get attrs "delete"); reflexivity. }
  destruct (string_dec k "PUT") as [-> | Hput].
  { change (lower "PUT") with "put".
    change (is_param ["GET"; "POST"; "PUT"; "DELETE"] "PUT") with true.
    destruct (dict_get attrs "get"), (dict_get attrs "post"),
      (dict_get attrs "put"), (dict_get attrs "delete"); reflexivity. }
  destruct (string_dec k "DELETE") as [-> | Hdelete].
  { change (lower "DELETE") with "delete".
    change (is_param ["GET"; "POST"; "PUT"; "DELETE"] "DELETE") with true.
    destruct (dict_get attrs "get"), (dict_get attrs "post"),
      (dict_get attrs "put"), (dict_get attrs "delete"); reflexivity. }
  assert (Hk : is_param ["GET"; "POST"; "PUT"; "DELETE"] k = false).
  { destruct (is_param ["GET"; "POST"; "PUT"; "DELETE"] k) eqn:E;
      [ | reflexivity].
    apply is_param_spec in E. simpl in E. intuition congruence. }
  rewrite Hk.
  destruct (dict_get attrs "get"), (dict_get attrs "post"),
    (dict_get attrs "put"), (dict_get attrs "delete");
    rewrite ?dict_get_set_other by congruence; reflexivity.
Qed.

(** X15. A method registered by hand is reached under every spelling:
    after [register_method] of a handler under a name, a request whose
    method is that name up to case is dispatched as on a table that
    holds this handler alone, whatever was registered before. *)
Theorem registered_method_is_dispatched (methods : dict Method)
  (method_name : string) (h : Method) (request : Request) (s : Session) :
  upper (method request) = upper method_name ->
  dispatch (register_method methods method_name h) request s =
  dispatch [(upper method_name, h)] request s.
Proof.
  intros Hm. unfold dispatch, register_method.
  rewrite Hm, dict_get_set_same.
  cbn [dict_get]. now rewrite String.eqb_refl.
Qed.

Lemma registered_method_is_dispatched_witness :
  upper (method (mkRequest "patch" [] None)) = upper "Patch" /\
  dispatch
    (register_method (collection_endpoint person_resource) "Patch"
       (collection_get person_resource))
    (mkRequest "patch" [] None) one_note =
  dispatch [(upper "Patch", collection_get person_resource)]
    (mkRequest "patch" [] None) one_note.
Proof.
  assert (H : upper (method (mkRequest "patch" [] None)) = upper "Patch")
    by reflexivity.
  split; [exact H | ].
  exact (@registered_method_is_dispatched
           (collection_endpoint person_resource) "Patch"
           (collection_get person_resource) (mkRequest "patch" [] None)
           one_note H).
Defined.

(** X16. Among the available arguments the name [request] is always the
    request itself, also when the route has a path parameter of that
    name; every other name is the path parameter of that name. *)
Theorem request_shadows_path_parameter (request : Request) (k : string) :
  dict_get (available_args request) k =
  if String.eqb "request" k
  then Some (RequestArg request)
  else option_map PathArg (dict_get (match_info request) k).
Proof.
  unfold available_args, dict_update. cbn [fold_left fst snd].
  destruct (String.eqb_spec "request" k) as [<- | Hk].
  - apply dict_get_set_same.
  - rewrite dict_get_set_other by exact Hk. apply dict_get_map.
Qed.

(** ** The entity and its renderings *)

Section EntityFacts.

(** What a successful [from_json] tells about its argument. *)
Lemma from_json_fields (data : value) (n : Note) :
  from_json data = Ok n ->
  exists d,
    data = VDict d /\
    (forall k, In k (dict_keys d) -> In k init_params) /\
    dict_get d "title" = Some (title n) /\
    dict_get d "description" = Some (description n) /\
    dict_get d "created_at" = Some (created_at n) /\
    dict_get d "created_by" = Some (created_by n) /\
    dict_get d "priority" = Some (priority n) /\
    id n = None.
Proof.
  destruct data as [ | | | | | | d]; try discriminate.
  unfold from_json, bind_kwargs.
  destruct (forallb (is_param init_params) (dict_keys d)) eqn:F;
    [ | discriminate].
  assert (Hkeys : forall k, In k (dict_keys d) -> In k init_params).
  { intros k Hk. apply is_param_spec.
    now apply (proj1 (forallb_forall _ _) F). }
  unfold init_params at 1. simpl.
  destruct (dict_get d "title") as [t | ] eqn:Ht; [ | discriminate].
  destruct (dict_get d "description") as [de | ] eqn:Hde; [ | discriminate].
  destruct (dict_get d "created_at") as [ca | ] eqn:Hca; [ | discriminate].
  destruct (dict_get d "created_by") as [cb | ] eqn:Hcb; [ | discriminate].
  destruct (dict_get d "priority") as [p | ] eqn:Hp; [ | discriminate].
  simpl. intros [= <-]. exists d. split; [reflexivity | ].
  split; [exact Hkeys | ].
  simpl. repeat split; assumption.
Qed.

Lemma column_is_read (n : Note) (name : string) :
  is_column name = true -> exists v, getattr n name = Ok v.
Proof.
  intros H. apply is_param_spec in H. simpl in H.
  destruct H as [<- | [<- | [<- | [<- | [<- | [<- | []]]]]]];
    eexists; reflexivity.
Qed.

(** The loop of [render], from any dictionary. *)
Lemma render_fold (n : Note) (names : list string) :
  (forall p, In p names -> is_column p = true) ->
  forall acc, exists d,
    fold_left
      (fun acc name =>
         result_bind acc (fun d =>
         result_bind (getattr n name) (fun v =>
         Ok (dict_set d name v))))
      names (Ok acc) = Ok d /\
    (forall p, In p names ->
       exists v, getattr n p = Ok v /\ dict_get d p = Some v) /\
    (forall k, ~ In k names -> dict_get d k = dict_get acc k) /\
    (forall k, In k (dict_keys d) -> In k (dict_keys acc) \/ In k names).
Proof.
  induction names as [ | name names IH]; intros H acc.
  - exists acc. simpl. repeat split; auto; contradiction.
  - destruct (column_is_read n name (H name (or_introl eq_refl))) as [v Hv].
    simpl. rewrite Hv. simpl.
    destruct (IH (fun p Hp => H p (or_intror Hp)) (dict_set acc name v))
      as [d (Hd & Hin & Hout & Hkeys)].
    exists d. split; [exact Hd | ]. split; [ | split].
    + intros p [<- | Hp]; [ | now apply Hin].
      destruct (in_dec string_dec name names) as [Hn | Hn];
        [now apply Hin | ].
      exists v. split; [exact Hv | ].
      rewrite (Hout name Hn). apply dict_get_set_same.
    + intros k Hk. rewrite Hout by tauto.
      apply dict_get_set_other. tauto.
    + intros k Hk. destruct (Hkeys k Hk) as [Hk' | Hk']; [ | right; now right].
      apply dict_keys_set in Hk'.
      destruct Hk' as [-> | Hk']; [right; now left | now left].
Qed.

(** With unique keys an identifier designates the one row of its key. *)
Lemma matching_unique (i : string) (s : Session) (n : Note) :
  keys_unique s -> In n s -> id_is i n = true -> matching i s = Some n.
Proof.
  unfold keys_unique, matching.
  induction s as [ | m s IH]; simpl; intros Hnd Hin Hi; [contradiction | ].
  inversion Hnd as [ | x l Hnotin Hnd']; subst.
  destruct Hin as [-> | Hin]; [now rewrite Hi | ].
  destruct (id_is i m) eqn:Em; [ | now apply IH].
  exfalso. apply Hnotin.
  destruct (id_is_key _ _ Em) as [k [Hk Ei]].
  destruct (id_is_key _ _ Hi) as [k' [Hk' Ei']].
  rewrite Ei in Ei'. injection Ei' as <-.
  rewrite Hk, <- Hk'. now apply in_map.
Qed.

End EntityFacts.

(** X17. [from_json] succeeds exactly on a dictionary that has the five
    fields and no other key, in any order, and then builds the note with
    these five values and no identifier; on a missing field, on an extra
    key and on a value that is no dictionary it raises. *)
Theorem from_json_accepts_exactly_five (data : value) (n : Note) :
  from_json data = Ok n <->
  exists d,
    data = VDict d /\
    (forall k, In k (dict_keys d) ->
       In k ["title"; "description"; "created_at"; "created_by";
             "priority"]) /\
    dict_get d "title" = Some (title n) /\
    dict_get d "description" = Some (description n) /\
    dict_get d "created_at" = Some (created_at n) /\
    dict_get d "created_by" = Some (created_by n) /\
    dict_get d "priority" = Some (priority n) /\
    id n = None.
Proof.
  split; [apply from_json_fields | ].
  intros [d (-> & Hkeys & Ht & Hde & Hca & Hcb & Hp & Hid)].
  unfold from_json, bind_kwargs.
  assert (F : forallb (is_param init_params) (dict_keys d) = true).
  { apply forallb_forall. intros k Hk. apply is_param_spec.
    now apply Hkeys. }
  rewrite F. unfold init_params. simpl.
  rewrite Ht, Hde, Hca, Hcb, Hp. simpl.
  destruct n as [i t de ca cb p]. simpl in Hid. now subst i.
Qed.

(** X18. [to_json] after [from_json] gives back the five submitted
    fields, preceded by an [id] entry that is [None]: a note built from
    a mapping has no identifier before it is stored. *)
Theorem to_json_of_from_json (data : value) (n : Note) :
  from_json data = Ok n ->
  to_json n = Ok (("id", VNone) :: rendered n) /\
  forall k,
    In k ["title"; "description"; "created_at"; "created_by"; "priority"] ->
    subscript (VDict (("id", VNone) :: rendered n)) k = subscript data k.
Proof.
  intros H.
  destruct (from_json_fields data H)
    as [d (-> & _ & Ht & Hde & Hca & Hcb & Hp & Hid)].
  split.
  - unfold to_json, to_serialize. simpl. unfold id_value. now rewrite Hid.
  - intros k [<- | [<- | [<- | [<- | [<- | []]]]]]; simpl;
      [rewrite Ht | rewrite Hde | rewrite Hca | rewrite Hcb | rewrite Hp];
      reflexivity.
Qed.

Lemma to_json_of_from_json_witness :
  from_json body_A =
    Ok (init (VStr "A") (VStr "d") (VStr "t") (VStr "u") (VInt 1)) /\
  to_json (init (VStr "A") (VStr "d") (VStr "t") (VStr "u") (VInt 1)) =
    Ok (("id", VNone) ::
        fields (VStr "A") (VStr "d") (VStr "t") (VStr "u") (VInt 1)).
Proof.
  assert (H : from_json body_A =
              Ok (init (VStr "A") (VStr "d") (VStr "t") (VStr "u") (VInt 1)))
    by reflexivity.
  split; [exact H | ].
  exact (proj1 (@to_json_of_from_json body_A _ H)).
Defined.

(** X19. For a resource whose properties are columns of the note,
    [render] succeeds on every note: the object has, for each property,
    the value of that attribute, and no key that is no property. *)
Theorem render_projects_properties (self : RestResource) (n : Note) :
  (forall p, In p (properties self) -> is_column p = true) ->
  exists d,
    render self n = Ok d /\
    (forall p, In p (properties self) ->
       exists v, getattr n p = Ok v /\ dict_get d p = Some v) /\
    (forall k, In k (dict_keys d) -> In k (properties self)).
Proof.
  intros H.
  destruct (render_fold n (properties self) H [])
    as [d (Hd & Hin & _ & Hkeys)].
  exists d. split; [exact Hd | split; [exact Hin | ]].
  intros k Hk. destruct (Hkeys k Hk) as [[] | Hp]. exact Hp.
Qed.

Lemma render_projects_properties_witness :
  exists d,
    render (mkRestResource "notes" [] ["priority"; "id"] "id") note_B = Ok d /\
    (forall p, In p ["priority"; "id"] ->
       exists v, getattr note_B p = Ok v /\ dict_get d p = Some v) /\
    (forall k, In k (dict_keys d) -> In k ["priority"; "id"]).
Proof.
  apply (@render_projects_properties
           (mkRestResource "notes" [] ["priority"; "id"] "id") note_B).
  intros p [<- | [<- | []]]; reflexivity.
Defined.

(** X20. The list and the fetch agree: with unique primary keys, every
    stored note has its entry in the body of GET /notes, and GET
    /notes/{id} on a path that denotes its key returns 200 with the
    rendering of that very note. *)
Theorem listed_notes_are_fetched (s : Session) (n : Note) (k : Z)
  (i : string) (b b' : option value) :
  keys_unique s ->
  In n s ->
  id n = Some k ->
  int_of_text i = Some k ->
  (exists r,
     snd (app collection_route "GET" b s) = Ok r /\
     listed r = map note_entry s /\
     In (note_entry n) (listed r)) /\
  snd (app (instance_route i) "GET" b' s) =
    Ok (mkResponse 200 (encode (VDict (rendered n))) json_type).
Proof.
  intros Hu Hin Hk Hi. split.
  - exists (mkResponse 200 (encode (notes_document s)) json_type).
    rewrite app_list. split; [reflexivity | ].
    unfold listed. simpl. split; [reflexivity | now apply in_map].
  - rewrite fetch_outcome. cbn [snd].
    rewrite (@matching_unique i s n Hu Hin); [reflexivity | ].
    unfold id_is. now rewrite Hk, Hi, Z.eqb_refl.
Qed.

Lemma listed_notes_are_fetched_witness :
  keys_unique two_notes /\
  In note_B two_notes /\
  id note_B = Some 2 /\
  int_of_text "2" = Some 2 /\
  snd (app (instance_route "2") "GET" None two_notes) =
    Ok (mkResponse 200 (encode (VDict (rendered note_B))) json_type).
Proof.
  assert (Hu : keys_unique two_notes).
  { repeat constructor; simpl; intuition discriminate. }
  assert (Hin : In note_B two_notes) by (simpl; tauto).
  assert (Hk : id note_B = Some 2) by reflexivity.
  assert (Hi : int_of_text "2" = Some 2) by reflexivity.
  split; [exact Hu | split; [exact Hin | split; [exact Hk | split;
    [exact Hi | ]]]].
  exact (proj2 (@listed_notes_are_fetched two_notes note_B 2 "2" None None
                  Hu Hin Hk Hi)).
Defined.

(** ** Routes and bodies the handlers do not fit *)

(** X21. The handlers of the instance endpoint all declare
    [instance_id]. On a route whose path has no parameter of that name,
    the endpoint answers every method it supports with the 400 of the
    dispatcher and every other method with the 405, calls no handler and
    leaves the table as it is. *)
Theorem instance_endpoint_needs_instance_id (resource : RestResource)
  (m : string) (path : dict string) (b : option value) (s : Session) :
  dict_get path "instance_id" = None ->
  dispatch (instance_endpoint resource) (mkRequest m path b) s =
  (s, Raise (if is_param ["GET"; "PUT"; "DELETE"] (upper m)
             then HttpBadRequest ""
             else HTTPMethodNotAllowed "" ["GET"; "POST"; "PUT"; "DELETE"])).
Proof.
  intros Hpath.
  assert (Hid : dict_has (available_args (mkRequest m path b)) "instance_id"
                = false).
  { unfold dict_has, available_args, dict_update. cbn [fold_left fst snd].
    rewrite dict_get_set_other by discriminate.
    cbn [match_info]. now rewrite dict_get_map, Hpath. }
  assert (Hreq : dict_has (available_args (mkRequest m path b)) "request"
                 = true).
  { unfold dict_has, available_args, dict_update. cbn [fold_left fst snd].
    now rewrite dict_get_set_same. }
  unfold dispatch. cbn [method].
  unfold is_param. cbn [existsb].
  rewrite (String.eqb_sym (upper m) "GET"), (String.eqb_sym (upper m) "PUT"),
    (String.eqb_sym (upper m) "DELETE").
  generalize dependent (available_args (mkRequest m path b)).
  intros available Hid Hreq.
  generalize (upper m); intros u.
  change (dict_get (instance_endpoint resource) u)
    with (if String.eqb "GET" u then Some (instance_get resource)
          else if String.eqb "PUT" u then Some (instance_put resource)
          else if String.eqb "DELETE" u then Some instance_delete
          else None).
  destruct (String.eqb "GET" u).
  { unfold unsatisfied_args. cbn [parameters instance_get filter].
    now rewrite Hid. }
  destruct (String.eqb "PUT" u).
  { unfold unsatisfied_args. cbn [parameters instance_put filter].
    now rewrite Hid, Hreq. }
  destruct (String.eqb "DELETE" u).
  { unfold unsatisfied_args. cbn [parameters instance_delete filter].
    now rewrite Hid. }
  reflexivity.
Qed.

Lemma instance_endpoint_needs_instance_id_witness :
  dict_get [("note_id", "1")] "instance_id" = None /\
  dispatch (instance_endpoint person_resource)
    (mkRequest "GET" [("note_id", "1")] None) one_note =
  (one_note, Raise (HttpBadRequest "")).
Proof.
  assert (H : dict_get [("note_id", "1")] "instance_id" = None)
    by reflexivity.
  split; [exact H | ].
  exact (@instance_endpoint_needs_instance_id person_resource "GET"
           [("note_id", "1")] None one_note H).
Defined.

(** X22. GET and DELETE do not read the body: the outcome of a request
    with one of these methods is the same for every body, also for one
    that is no JSON text. *)
Theorem get_and_delete_ignore_the_body (resource : RestResource) (r : route)
  (m : string) (b b' : option value) (s : Session) :
  upper m = "GET" \/ upper m = "DELETE" ->
  serve resource r m b s = serve resource r m b' s.
Proof.
  intros [Hm | Hm]; rewrite !serve_cases, Hm; destruct r; reflexivity.
Qed.

Lemma get_and_delete_ignore_the_body_witness :
  (upper "delete" = "GET" \/ upper "delete" = "DELETE") /\
  app (instance_route "1") "delete" (Some body_A) two_notes =
  app (instance_route "1") "delete" None two_notes.
Proof.
  assert (H : upper "delete" = "GET" \/ upper "delete" = "DELETE")
    by (right; reflexivity).
  split; [exact H | ].
  exact (@get_and_delete_ignore_the_body person_resource (instance_route "1")
           "delete" (Some body_A) None two_notes H).
Defined.
